(** * MCP client orchestration loop: a shallow embedding of
      [client_calculator_script.py] and the properties of its query cycle.

    The client launches a tool-provider subprocess, lists its tools, asks a
    chat model what to do with a user query, runs the tool calls the model
    requests and asks the model for a summary.  The subprocess, the protocol
    session and the model backend are external collaborators: they are
    modelled as operations on an abstract world, every interaction with them
    is recorded in a log, and the methods of [MCPClient] are programs in a
    state-and-exception monad over that world.

    Not modelled: the [logging] calls (they only write to the log handlers),
    and signals that are not instances of Python's [Exception]
    (KeyboardInterrupt, task cancellation). *)

From Stdlib Require Import Ascii String.
From stdpp Require Import base option strings list gmap.

Local Open Scope string_scope.

(** ** Python values and strings *)

(** JSON-like values: what a tool's input schema and a tool call's
    arguments are made of. *)
#[local] Unset Elimination Schemes.
Inductive json :=
  | JNull
  | JBool (b : bool)
  | JInt (n : Z)
  | JStr (s : string)
  | JArr (l : list json)
  | JObj (m : gmap string json).
#[local] Set Elimination Schemes.

(** [s.endswith(suffix)] *)
Definition endswith (s suffix : string) : bool :=
  Nat.leb (String.length suffix) (String.length s) &&
  String.eqb
    (String.substring (String.length s - String.length suffix) (String.length suffix) s)
    suffix.

(** [s] is [suffix] with something in front of it. *)
Definition has_suffix (s suffix : string) : Prop :=
  ∃ prefix, s = prefix +:+ suffix.

(** The line feed, Python's ["\n"]. *)
Definition nl : string := String "010"%char "".

(** [sep.join(l)] *)
Fixpoint join (sep : string) (l : list string) : string :=
  match l with
  | [] => ""
  | [x] => x
  | x :: rest => x +:+ sep +:+ join sep rest
  end.

(** An instance of [Exception]: its class and [str(e)]. *)
Inductive exn := Exn (cls : string) (msg : string).

Definition exn_str (e : exn) : string := let 'Exn _ msg := e in msg.

(** The outcome of an expression that may raise. *)
Definition result (A : Type) : Type := exn + A.
Definition Raised {A} (e : exn) : result A := inl e.
Definition Returned {A} (a : A) : result A := inr a.
Arguments Returned {A} & a.
Arguments pair {A B} & _ _.

(** What [process_query] hands back: a [str], or [None]. *)
Inductive value :=
  | Str (text : string)
  | PyNone.
Coercion Str : string >-> value.

(** [f"{v}"] *)
Definition format_value (v : value) : string :=
  match v with
  | Str text => text
  | PyNone => "None"
  end.

(** ** Data model *)

(** A tool descriptor as listed by the session. *)
Record Tool := {
  name : string;
  description : option string;
  inputSchema : gmap string json;
}.

(** The function-style schema entry handed to the model backend:
    [{"type": ..., "function": {"name": ..., "description": ...,
      "parameters": {"type": ..., "properties": ..., "required": ...}}}]. *)
Record Parameters := {
  parameters_type : string;
  properties : json;
  required : json;
}.

Record FunctionSchema := {
  function_name : string;
  function_description : option string;
  parameters : Parameters;
}.

Record ToolSchema := {
  schema_type : string;
  function : FunctionSchema;
}.

(** A tool call requested by the model:
    [{"function": {"name": ..., "arguments": ...}}]. *)
Record ToolCall := {
  call_name : string;
  call_arguments : gmap string json;
}.

(** What a turn of the conversation is made of: a dict, as the client
    builds for the [user] and [tool] turns, or the Message object of the
    ollama library, as [ollama.chat] returns. *)
Inductive message_class :=
  | Dict
  | OllamaMessage.

(** One turn of the conversation, with the keys ["role"], ["content"] and
    ["tool_calls"]; [None] is an absent key of a dict, an unset field of
    the library's Message. *)
Record Message := {
  role : string;
  content : option string;
  tool_calls : option (list ToolCall);
  class_of : message_class;
}.

(** What [ollama.chat] returns: [response["message"]]. *)
Record ChatResponse := { message : Message }.

Record StdioServerParameters := {
  command : string;
  args : list string;
  env : option (gmap string string);
}.

(** ** External collaborators *)

Class Collaborators := {
  (** the state of everything outside the client *)
  world : Type;
  (** the (read, write) pair of a launched subprocess *)
  Transport : Type;
  (** a protocol session handle *)
  ClientSession : Type;
  (** [result.content] of a tool call *)
  Content : Type;
  stdio_client : StdioServerParameters → world → result Transport * world;
  open_session : Transport → world → result ClientSession * world;
  initialize : ClientSession → world → result () * world;
  (** [(await session.list_tools()).tools] *)
  list_tools : ClientSession → world → result (list Tool) * world;
  (** [(await session.call_tool(name, arguments)).content] *)
  call_tool :
    ClientSession → string → gmap string json → world → result Content * world;
  (** [ollama.chat(model=..., messages=..., tools=...)] *)
  ollama_chat :
    string → list Message → option (list ToolSchema) → world →
    result ChatResponse * world;
  (** [isinstance(c, (dict, list))] *)
  is_dict_or_list : Content → bool;
  (** [json.dumps(c)]: raises on values that have no JSON encoding *)
  json_dumps : Content → result string;
  (** [str(c)] *)
  py_str : Content → result string;
}.

Section Client.
Context `{Collab : Collaborators}.

(** What the client did to its collaborators, oldest first. *)
Inductive Event :=
  | EvLaunch (p : StdioServerParameters)
  | EvOpenSession
  | EvInitialize
  | EvListTools
  | EvChat (model : string) (msgs : list Message) (tools : option (list ToolSchema))
  | EvCallTool (tool_name : string) (tool_args : gmap string json)
      (outcome : result Content).

(** The client object ([self.model], [self.session]), the locals of
    [process_query] that are mutated in place ([messages], [tool_outputs]),
    the world and the log. *)
Record state := {
  self_model : string;
  self_session : option ClientSession;
  messages : list Message;
  tool_outputs : list string;
  the_world : world;
  log : list Event;
}.

(** ** The monad: state that survives an exception *)

Definition M (A : Type) : Type := state → result A * state.

#[export] Instance M_ret : MRet M := λ A a s, (Returned a, s).

#[export] Instance M_bind : MBind M := λ A B f m s,
  match m s with
  | (inr a, s') => f a s'
  | (inl e, s') => (Raised e, s')
  end.

Definition raise {A} (e : exn) : M A := λ s, (Raised e, s).

(** [try: body except Exception as e: handler e] *)
Definition try_except {A} (body : M A) (handler : exn → M A) : M A := λ s,
  match body s with
  | (inl e, s') => handler e s'
  | r => r
  end.

Definition gets {A} (f : state → A) : M A := λ s, (Returned (f s), s).
Definition modify (f : state → state) : M () := λ s, (Returned (), f s).

(** [for x in l: body x] *)
Fixpoint for_each {A} (l : list A) (body : A → M ()) : M () :=
  match l with
  | [] => mret ()
  | x :: rest => body x ;; for_each rest body
  end.

(** Lift an expression that can raise but touches nothing. *)
Definition lift_result {A} (r : result A) : M A := λ s, (r, s).

Definition set_world (w : world) (s : state) : state :=
  {| self_model := self_model s; self_session := self_session s;
     messages := messages s; tool_outputs := tool_outputs s;
     the_world := w; log := log s |}.

Definition record_event (ev : Event) (s : state) : state :=
  {| self_model := self_model s; self_session := self_session s;
     messages := messages s; tool_outputs := tool_outputs s;
     the_world := the_world s; log := log s ++ [ev] |}.

Definition set_session (c : ClientSession) (s : state) : state :=
  {| self_model := self_model s; self_session := Some c;
     messages := messages s; tool_outputs := tool_outputs s;
     the_world := the_world s; log := log s |}.

Definition set_messages (ms : list Message) (s : state) : state :=
  {| self_model := self_model s; self_session := self_session s;
     messages := ms; tool_outputs := tool_outputs s;
     the_world := the_world s; log := log s |}.

Definition set_tool_outputs (os : list string) (s : state) : state :=
  {| self_model := self_model s; self_session := self_session s;
     messages := messages s; tool_outputs := os;
     the_world := the_world s; log := log s |}.

(** Run a collaborator's operation and record it. *)
Definition interact {A} (op : world → result A * world) (ev : result A → Event)
  : M A := λ s,
  let '(r, w) := op (the_world s) in
  (r, record_event (ev r) (set_world w s)).

Definition do_stdio_client (p : StdioServerParameters) : M Transport :=
  interact (stdio_client p) (λ _, EvLaunch p).

Definition do_open_session (t : Transport) : M ClientSession :=
  interact (open_session t) (λ _, EvOpenSession).

Definition do_initialize (c : ClientSession) : M () :=
  interact (initialize c) (λ _, EvInitialize).

Definition do_list_tools (c : ClientSession) : M (list Tool) :=
  interact (list_tools c) (λ _, EvListTools).

Definition do_call_tool (c : ClientSession) (n : string) (a : gmap string json)
  : M Content :=
  interact (call_tool c n a) (EvCallTool n a).

Definition do_chat (model : string) (msgs : list Message)
    (tools : option (list ToolSchema)) : M ChatResponse :=
  interact (ollama_chat model msgs tools) (λ _, EvChat model msgs tools).

(** [messages.append(m)] and [tool_outputs.append(line)] *)
Definition messages_append (m : Message) : M () :=
  modify (λ s, set_messages (messages s ++ [m]) s).

Definition tool_outputs_append (line : string) : M () :=
  modify (λ s, set_tool_outputs (tool_outputs s ++ [line]) s).

(** ** The tool catalog adapter (the list comprehension of [process_query]) *)

Definition tool_schema (tool : Tool) : ToolSchema :=
  {| schema_type := "function";
     function :=
       {| function_name := name tool;
          function_description := description tool;
          parameters :=
            {| parameters_type := "object";
               properties := default (JObj ∅) (inputSchema tool !! "properties");
               required := default (JArr []) (inputSchema tool !! "required") |} |} |}.

Definition available_tools (tools : list Tool) : list ToolSchema :=
  tool_schema <$> tools.

(** ** [MCPClient.connect_to_server] *)

Definition connect_to_server (server_script_path : string) : M () :=
  let is_python := endswith server_script_path ".py" in
  let is_js := endswith server_script_path ".js" in
  if negb (is_python || is_js) then
    raise (Exn "ValueError" "Server script must be a .py or .js file")
  else
    let command := if is_python then "python" else "node" in
    let server_params :=
      {| command := command; args := [server_script_path]; env := None |} in
    stdio_transport ← do_stdio_client server_params;
    session ← do_open_session stdio_transport;
    modify (set_session session);;
    do_initialize session;;
    tools ← do_list_tools session;
    mret ().

(** ** [MCPClient.process_query] *)

Definition user_message (query : string) : Message :=
  {| role := "user"; content := Some query; tool_calls := None;
     class_of := Dict |}.

Definition tool_message (text : string) : Message :=
  {| role := "tool"; content := Some text; tool_calls := None;
     class_of := Dict |}.

(** The lines added to [tool_outputs]. *)
Definition returned_line (tool_name content_str : string) : string :=
  "[Tool '" +:+ tool_name +:+ "' returned: " +:+ content_str +:+ "]".

Definition error_text (tool_name : string) (e : exn) : string :=
  "Error calling tool '" +:+ tool_name +:+ "': " +:+ exn_str e.

(** The truth value of [response_message.get("tool_calls")]: an absent key
    and an empty list are both false. *)
Definition requested_calls (m : Message) : list ToolCall :=
  default [] (tool_calls m).

Definition no_content : string := "Sorry, I received no content.".
Definition not_connected : string := "Error: Not connected to a server.".

(** [m.get("content", default)].  A dict without the key gives the default.
    The library's Message has the attribute whether it was set or not, so
    its [get] never falls back on the default: an unset content is [None]. *)
Definition get_content (m : Message) (default : string) : value :=
  match content m with
  | Some text => Str text
  | None =>
    match class_of m with
    | Dict => Str default
    | OllamaMessage => PyNone
    end
  end.

(** [json.dumps(c) if isinstance(c, (dict, list)) else str(c)] *)
Definition serialise (c : Content) : result string :=
  if is_dict_or_list c then json_dumps c else py_str c.

(** The body of the [for tool_call in ...] loop. *)
Definition run_tool_call (session : ClientSession) (tool_call : ToolCall) : M () :=
  let tool_name := call_name tool_call in
  let tool_args := call_arguments tool_call in
  try_except
    (result_content ← do_call_tool session tool_name tool_args;
     content_str ← lift_result (serialise result_content);
     tool_outputs_append (returned_line tool_name content_str);;
     messages_append (tool_message content_str))
    (λ e,
     let error_message := error_text tool_name e in
     tool_outputs_append ("[" +:+ error_message +:+ "]");;
     messages_append (tool_message error_message)).

Definition process_query (query : string) : M value :=
  session ← gets self_session;
  match session with
  | None => mret (Str not_connected)
  | Some session =>
    modify (set_messages [user_message query]);;
    tools ← do_list_tools session;
    let available_tools := available_tools tools in
    model ← gets self_model;
    msgs ← gets messages;
    response ← do_chat model msgs (Some available_tools);
    let response_message := message response in
    messages_append response_message;;
    match requested_calls response_message with
    | [] => mret (get_content response_message no_content)
    | calls =>
      modify (set_tool_outputs []);;
      for_each calls (run_tool_call session);;
      msgs ← gets messages;
      final_response ← do_chat model msgs None;
      final_message ← lift_result
        (match content (message final_response) with
         | Some text => Returned text
         | None => Raised (Exn "KeyError" "'content'")
         end);
      outputs ← gets tool_outputs;
      mret (Str (join nl outputs +:+ (nl +:+ nl) +:+ final_message))
    end
  end.

(** ** Reading a run *)

Definition is_chat (ev : Event) : bool :=
  match ev with EvChat _ _ _ => true | _ => false end.

Definition is_call (ev : Event) : bool :=
  match ev with EvCallTool _ _ _ => true | _ => false end.

(** The model calls and the tool calls in a stretch of the log. *)
Definition model_calls (l : list Event) : list Event := filter is_chat l.
Definition tool_calls_made (l : list Event) : list Event := filter is_call l.

(** The events a program adds to the log when run from [s]. *)
Definition events_of {A} (m : M A) (s : state) : list Event :=
  drop (length (log s)) (log (m s).2).

(** What the session answers to a sequence of calls issued one after the
    other from world [w], and the world they leave. *)
Fixpoint call_outcomes (session : ClientSession) (calls : list ToolCall) (w : world)
  : list (result Content) :=
  match calls with
  | [] => []
  | c :: rest =>
    let '(r, w') := call_tool session (call_name c) (call_arguments c) w in
    r :: call_outcomes session rest w'
  end.

Fixpoint world_after_calls (session : ClientSession) (calls : list ToolCall)
    (w : world) : world :=
  match calls with
  | [] => w
  | c :: rest =>
    world_after_calls session rest
      (call_tool session (call_name c) (call_arguments c) w).2
  end.

(** A call fails when the session raises, or when its result cannot be
    turned into text. *)
Definition call_failure (o : result Content) : option exn :=
  match o with
  | inl e => Some e
  | inr c => match serialise c with inl e => Some e | inr _ => None end
  end.

(** The text of the [tool] Message a call's outcome is folded into. *)
Definition outcome_text (c : ToolCall) (o : result Content) : string :=
  match o with
  | inl e => error_text (call_name c) e
  | inr r =>
    match serialise r with
    | inl e => error_text (call_name c) e
    | inr content_str => content_str
    end
  end.

(** The report line for a call's outcome. *)
Definition outcome_line (c : ToolCall) (o : result Content) : string :=
  match o with
  | inl e => "[" +:+ error_text (call_name c) e +:+ "]"
  | inr r =>
    match serialise r with
    | inl e => "[" +:+ error_text (call_name c) e +:+ "]"
    | inr content_str => returned_line (call_name c) content_str
    end
  end.

Definition call_event (c : ToolCall) (o : result Content) : Event :=
  EvCallTool (call_name c) (call_arguments c) o.

(** What the spec asks of a call's outcome, spelled out.  The text folded
    into the [tool] Message: the result as text, or the error description
    when the session raised or the result has no text form. *)
Definition reported_text (c : ToolCall) (o : result Content) : string :=
  match o with
  | inl (Exn _ msg) => "Error calling tool '" +:+ call_name c +:+ "': " +:+ msg
  | inr r =>
    match (if is_dict_or_list r then json_dumps r else py_str r) with
    | inl (Exn _ msg) => "Error calling tool '" +:+ call_name c +:+ "': " +:+ msg
    | inr text => text
    end
  end.

(** The report line of the final output. *)
Definition reported_line (c : ToolCall) (o : result Content) : string :=
  match o with
  | inl (Exn _ msg) =>
    "[Error calling tool '" +:+ call_name c +:+ "': " +:+ msg +:+ "]"
  | inr r =>
    match (if is_dict_or_list r then json_dumps r else py_str r) with
    | inl (Exn _ msg) =>
      "[Error calling tool '" +:+ call_name c +:+ "': " +:+ msg +:+ "]"
    | inr text => "[Tool '" +:+ call_name c +:+ "' returned: " +:+ text +:+ "]"
    end
  end.

(** The call failed with an exception whose text is [msg]: the session
    raised it, or turning the result into text did. *)
Definition failed_with (o : result Content) (msg : string) : Prop :=
  match o with
  | inl (Exn _ m) => m = msg
  | inr r =>
    match (if is_dict_or_list r then json_dumps r else py_str r) with
    | inl (Exn _ m) => m = msg
    | inr _ => False
    end
  end.

(** The state the loop over [calls] leaves, in closed form: one event, one
    [tool] Message and one report line per call, in the order of [calls]. *)
Definition after_calls (session : ClientSession) (calls : list ToolCall)
    (s : state) : state :=
  let outs := call_outcomes session calls (the_world s) in
  {| self_model := self_model s;
     self_session := self_session s;
     messages :=
       messages s ++ zip_with (λ c o, tool_message (outcome_text c o)) calls outs;
     tool_outputs := tool_outputs s ++ zip_with outcome_line calls outs;
     the_world := world_after_calls session calls (the_world s);
     log := log s ++ zip_with call_event calls outs |}.

(** What [process_query] returns once the summary call has answered. *)
Definition summary_output (lines : list string) (r : result ChatResponse)
  : result value :=
  match r with
  | inl e => Raised e
  | inr final_response =>
    match content (message final_response) with
    | Some final_message =>
      Returned (Str (join nl lines +:+ (nl +:+ nl) +:+ final_message))
    | None => Raised (Exn "KeyError" "'content'")
    end
  end.

End Client.

(** ** A scripted world, to run the client on concrete conversations *)

Module Scripted.

(** Tool results: plain text, a structure with its JSON encoding, or a
    structure [json.dumps] rejects. *)
Inductive payload :=
  | Scalar (text : string)
  | Encodable (encoding : string)
  | Unencodable (why : string).

(** The provider's catalog and canned results, and the replies the model
    backend will give, in order. *)
Record script := {
  catalog : result (list Tool);
  tool_results : list (string * payload);
  replies : list (result ChatResponse);
}.

Fixpoint lookup_tool (n : string) (table : list (string * payload)) : option payload :=
  match table with
  | [] => None
  | (k, v) :: rest => if String.eqb k n then Some v else lookup_tool n rest
  end.

#[export] Instance collaborators : Collaborators := {|
  world := script;
  Transport := ();
  ClientSession := ();
  Content := payload;
  stdio_client := λ _ w, (Returned (), w);
  open_session := λ _ w, (Returned (), w);
  initialize := λ _ w, (Returned (), w);
  list_tools := λ _ w, (catalog w, w);
  call_tool := λ _ n _ w,
    (match lookup_tool n (tool_results w) with
     | Some r => Returned r
     | None => Raised (Exn "McpError" ("Unknown tool: " +:+ n))
     end, w);
  ollama_chat := λ _ _ _ w,
    match replies w with
    | [] => (Raised (Exn "ConnectionError" "Failed to connect to Ollama"), w)
    | r :: rest =>
      (r, {| catalog := catalog w; tool_results := tool_results w; replies := rest |})
    end;
  is_dict_or_list := λ c, match c with Scalar _ => false | _ => true end;
  json_dumps := λ c,
    match c with
    | Unencodable why => Raised (Exn "TypeError" why)
    | Encodable e => Returned e
    | Scalar t => Returned t
    end;
  py_str := λ c,
    match c with
    | Scalar t | Encodable t | Unencodable t => Returned t
    end;
|}.

Definition client (model : string) (connected : bool) (w : script) : state :=
  {| self_model := model;
     self_session := if connected then Some () else None;
     messages := []; tool_outputs := [];
     the_world := w; log := [] |}.

(** The calculator server's tools. *)
Definition add_tool : Tool :=
  {| name := "add"; description := Some "Add two numbers";
     inputSchema :=
       {[ "properties" :=
            JObj {[ "a" := JObj {[ "type" := JStr "integer" ]};
                    "b" := JObj {[ "type" := JStr "integer" ]} ]};
          "required" := JArr [JStr "a"; JStr "b"] ]} |}.

Definition search_tool : Tool :=
  {| name := "math_web_search";
     description := Some "Search the web for information about math";
     inputSchema := ∅ |}.

Definition call (n : string) (a : gmap string json) : ToolCall :=
  {| call_name := n; call_arguments := a |}.

Definition reply (text : option string) (calls : option (list ToolCall))
  : result ChatResponse :=
  Returned {| message := {| role := "assistant"; content := text;
                            tool_calls := calls; class_of := OllamaMessage |} |}.

(** "what is 2+2": the model asks for [add], then sums up. *)
Definition sum_calls : list ToolCall :=
  [call "add" {[ "a" := JInt 2; "b" := JInt 2 ]}].

Definition sum_script : script :=
  {| catalog := Returned [add_tool; search_tool];
     tool_results := [("add", Scalar "4"); ("math_web_search", Scalar "pi is 3.14159")];
     replies :=
       [reply None (Some sum_calls); reply (Some "The answer is 4.") None] |}.

(** "hello": the model answers directly. *)
Definition hello_script : script :=
  {| catalog := Returned [add_tool; search_tool];
     tool_results := [("add", Scalar "4")];
     replies := [reply (Some "Hi there!") None] |}.

(** The model says something and asks for the tools in the reverse of
    catalog order, with a tool the provider does not have in between; the
    search result is a structure that has no JSON encoding. *)
Definition mixed_calls : list ToolCall :=
  [call "math_web_search" {[ "query" := JStr "pi" ]};
   call "divide" {[ "a" := JInt 1; "b" := JInt 0 ]};
   call "add" {[ "a" := JInt 2; "b" := JInt 2 ]}].

Definition mixed_script : script :=
  {| catalog := Returned [add_tool; search_tool];
     tool_results :=
       [("add", Scalar "4");
        ("math_web_search",
         Unencodable "Object of type TextContent is not JSON serializable")];
     replies :=
       [reply (Some "Let me check.") (Some mixed_calls);
        reply (Some "Done.") None] |}.

(** The provider cannot list its tools. *)
Definition closed_script : script :=
  {| catalog := Raised (Exn "McpError" "Connection closed");
     tool_results := [];
     replies := [reply (Some "Hi there!") None] |}.

(** The backend goes away after the decision call. *)
Definition no_summary_script : script :=
  {| catalog := Returned [add_tool; search_tool];
     tool_results := [("add", Scalar "4")];
     replies := [reply None (Some sum_calls)] |}.

(** What is left of a script after the first reply. *)
Definition after_reply (w : script) : script :=
  {| catalog := catalog w; tool_results := tool_results w;
     replies := tail (replies w) |}.

Definition model : string := "gpt-oss:20b".

Definition answer (text : option string) (calls : option (list ToolCall))
  : ChatResponse :=
  {| message := {| role := "assistant"; content := text; tool_calls := calls;
                   class_of := OllamaMessage |} |}.

End Scripted.


(** ** The interactive shell: [chat_loop], [cleanup] and [main] *)

(** What [input()] gives on one call: a line, or a KeyboardInterrupt
    (Ctrl-C at the prompt).  A console is a list of these; [input()] on the
    empty list raises EOFError. *)
Inductive console_input :=
  | Typed (line : string)
  | CtrlC.

(** What [chat_loop] shows for a query: the response as the f-string
    renders it, or the exception the query raised. *)
Inductive shown :=
  | Answer (response : string)
  | Failure (e : exn).

(** How [main] ends: [sys.exit(status)], an exception, or normally. *)
Inductive main_result :=
  | Exited (status : Z)
  | Failed (e : exn)
  | Finished.

(** What the shell needs besides the client's collaborators. *)
Class Console `{Collab : Collaborators} := {
  (** [s.strip()] *)
  py_strip : string → string;
  (** [s.lower()] *)
  py_lower : string → string;
  (** [isinstance(e, EOFError)] *)
  is_eof : exn → bool;
  (** [await exit_stack.aclose()] *)
  aclose : world → result () * world;
}.

Section Shell.
Context `{Con : Console}.

(** [MCPClient.__init__]: a client without a session. *)
Definition new_client (model : string) (w : world) : state :=
  {| self_model := model; self_session := None;
     messages := []; tool_outputs := [];
     the_world := w; log := [] |}.

(** [MCPClient.chat_loop]: the [while True] loop, one turn per [input()].
    It returns what was shown and the state it leaves; it raises nothing.
    A KeyboardInterrupt can only arrive at the prompt. *)
Fixpoint chat_loop (stdin : list console_input) (s : state) : list shown * state :=
  match stdin with
  | [] => ([], s)
  | CtrlC :: _ => ([], s)
  | Typed line :: rest =>
    let query := py_strip line in
    if String.eqb (py_lower query) "quit" then ([], s)
    else if String.eqb query "" then chat_loop rest s
    else
      match process_query query s with
      | (inr response, s') =>
        let '(later, s'') := chat_loop rest s' in
        (Answer (format_value response) :: later, s'')
      | (inl e, s') =>
        if is_eof e then ([], s')
        else let '(later, s'') := chat_loop rest s' in (Failure e :: later, s'')
      end
  end.

(** [MCPClient.cleanup] *)
Definition cleanup : M () := λ s,
  let '(r, w) := aclose (the_world s) in (r, set_world w s).

(** [main], on [sys.argv] and a console: how it ends, what the chat loop
    showed, and the world and the log it leaves. *)
Definition main (argv : list string) (stdin : list console_input) (w : world)
  : main_result * list shown * (world * list Event) :=
  match argv with
  | _ :: server_script_path :: _ =>
    let client := new_client "gpt-oss:20b" w in
    match connect_to_server server_script_path client with
    | (inl e, s1) =>
      match cleanup s1 with
      | (inl e', s2) => (Failed e', [], (the_world s2, log s2))
      | (inr _, s2) => (Failed e, [], (the_world s2, log s2))
      end
    | (inr _, s1) =>
      let '(transcript, s2) := chat_loop stdin s1 in
      match cleanup s2 with
      | (inl e', s3) => (Failed e', transcript, (the_world s3, log s3))
      | (inr _, s3) => (Finished, transcript, (the_world s3, log s3))
      end
    end
  | _ => (Exited 1, [], (w, []))
  end.

(** A line the loop skips. *)
Definition is_blank (i : console_input) : bool :=
  match i with
  | Typed line => String.eqb (py_strip line) ""
  | CtrlC => false
  end.

(** An input that ends the loop: the line "quit" in any case, with any
    blanks around it, or a KeyboardInterrupt. *)
Definition ends_loop (i : console_input) : bool :=
  match i with
  | Typed line => String.eqb (py_lower (py_strip line)) "quit"
  | CtrlC => true
  end.

(** ** The calculator server's tools ([mcp_calculator_server.py]) *)

Definition search_unavailable : string :=
  "Sorry, the web search is currently unavailable.".

(** [math_web_search]: one chat call without tools, and a fixed answer for
    every exception. *)
Definition math_web_search (query : string) : M string :=
  try_except
    (response ← do_chat "qwen3:1.7b" [user_message query] None;
     lift_result
       (match content (message response) with
        | Some text => Returned text
        | None => Raised (Exn "KeyError" "'content'")
        end))
    (λ e, mret search_unavailable).

End Shell.

(** [get_greeting] *)
Definition get_greeting (name : string) : string :=
  "Hello, " +:+ name +:+ "!".

Definition styles : gmap string string :=
  {[ "friendly" := "Please write a warm, friendly greeting";
     "formal" := "Please write a formal, professional greeting";
     "casual" := "Please write a casual, relaxed greeting" ]}.

(** [get_greeting_prompt]; [style = None] is the omitted argument. *)
Definition get_greeting_prompt (name : string) (style : option string) : string :=
  let style := default "friendly" style in
  default (styles !!! "friendly") (styles !! style)
  +:+ " for someone named " +:+ name +:+ ".".

(** ** Worlds for the shell *)

Module Terminal.

(** Stand-ins for [str.strip] and [str.lower] on ASCII text. *)
Definition is_space (c : ascii) : bool :=
  let n := nat_of_ascii c in
  Nat.eqb n 32 || (Nat.leb 9 n && Nat.leb n 13) || (Nat.leb 28 n && Nat.leb n 31).

Fixpoint lstrip (s : string) : string :=
  match s with
  | String c rest => if is_space c then lstrip rest else s
  | EmptyString => EmptyString
  end.

Definition strip (s : string) : string :=
  String.rev (lstrip (String.rev (lstrip s))).

Definition lower_char (c : ascii) : ascii :=
  let n := nat_of_ascii c in
  if Nat.leb 65 n && Nat.leb n 90 then ascii_of_nat (n + 32) else c.

Fixpoint lower (s : string) : string :=
  match s with
  | String c rest => String (lower_char c) (lower rest)
  | EmptyString => EmptyString
  end.

Definition eof (e : exn) : bool :=
  let 'Exn cls _ := e in
  String.eqb cls "EOFError" || String.eqb cls "IncompleteReadError".

(** The backend is down from the start. *)
Definition silent_script : Scripted.script :=
  {| Scripted.catalog := Returned [Scripted.add_tool; Scripted.search_tool];
     Scripted.tool_results := [("add", Scripted.Scalar "4")];
     Scripted.replies := [] |}.

(** The summary answer comes without content. *)
Definition mute_summary_script : Scripted.script :=
  {| Scripted.catalog := Returned [Scripted.add_tool; Scripted.search_tool];
     Scripted.tool_results := [("add", Scripted.Scalar "4")];
     Scripted.replies :=
       [Scripted.reply None (Some Scripted.sum_calls); Scripted.reply None None] |}.

(** The model answers with the library's Message object, content unset. *)
Definition contentless_script : Scripted.script :=
  {| Scripted.catalog := Returned [Scripted.add_tool; Scripted.search_tool];
     Scripted.tool_results := [("add", Scripted.Scalar "4")];
     Scripted.replies := [Scripted.reply None None] |}.

(** The model answers with a dict that has no ["content"] key. *)
Definition dict_answer : ChatResponse :=
  {| message := {| role := "assistant"; content := None; tool_calls := None;
                   class_of := Dict |} |}.

Definition dict_script : Scripted.script :=
  {| Scripted.catalog := Returned [Scripted.add_tool; Scripted.search_tool];
     Scripted.tool_results := [("add", Scripted.Scalar "4")];
     Scripted.replies := [Returned dict_answer] |}.

#[export] Instance console : @Console Scripted.collaborators := {|
  py_strip := strip;
  py_lower := lower;
  is_eof := eof;
  aclose := λ w, (Returned (), w);
|}.

End Terminal.

(** A provider whose launch, session or handshake can be made to fail. *)
Module Wired.

Record wiring := {
  launch_error : option exn;
  session_error : option exn;
  handshake_error : option exn;
  script : Scripted.script;
}.

Definition fail_with {A} (e : option exn) (a : A) (w : wiring) : result A * wiring :=
  match e with
  | Some e => (Raised e, w)
  | None => (Returned a, w)
  end.

Definition on_script {A} (op : Scripted.script → result A * Scripted.script)
    (w : wiring) : result A * wiring :=
  let '(r, sc) := op (script w) in
  (r, {| launch_error := launch_error w; session_error := session_error w;
         handshake_error := handshake_error w; script := sc |}).

Definition collaborators : Collaborators := {|
  world := wiring;
  Transport := ();
  ClientSession := ();
  Content := Scripted.payload;
  stdio_client := λ _ w, fail_with (launch_error w) () w;
  open_session := λ _ w, fail_with (session_error w) () w;
  initialize := λ _ w, fail_with (handshake_error w) () w;
  list_tools := λ c, on_script (@list_tools Scripted.collaborators c);
  call_tool := λ c n a, on_script (@call_tool Scripted.collaborators c n a);
  ollama_chat := λ m ms ts, on_script (@ollama_chat Scripted.collaborators m ms ts);
  is_dict_or_list := @is_dict_or_list Scripted.collaborators;
  json_dumps := @json_dumps Scripted.collaborators;
  py_str := @py_str Scripted.collaborators;
|}.

Definition console : @Console collaborators := {|
  py_strip := Terminal.strip;
  py_lower := Terminal.lower;
  is_eof := Terminal.eof;
  aclose := λ w, (Returned (), w);
|}.

Definition wired (launch session handshake : option exn) : wiring :=
  {| launch_error := launch; session_error := session;
     handshake_error := handshake; script := Scripted.hello_script |}.

Definition fresh_client (launch session handshake : option exn)
  : @state collaborators :=
  @new_client collaborators "gpt-oss:20b" (wired launch session handshake).

Definition refused : exn := Exn "FileNotFoundError" "No such file or directory: 'python'".
Definition no_handshake : exn := Exn "McpError" "Connection closed".

End Wired.

(** * Properties *)

Section Properties.
Context `{Collab : Collaborators}.

Implicit Types (s : state) (q : string) (session : ClientSession).
Implicit Types (calls : list ToolCall) (w : world).

(** ** Strings *)

Lemma string_length_app (a b : string) :
  String.length (a +:+ b) = String.length a + String.length b.
Proof.
  induction a as [|ch a IH]; [done|].
  change (String ch a +:+ b) with (String ch (a +:+ b)). cbn. by rewrite IH.
Qed.

Lemma string_app_assoc (a b c : string) :
  (a +:+ b) +:+ c = a +:+ (b +:+ c).
Proof.
  induction a as [|ch a IH]; [done|].
  change (String ch a +:+ b) with (String ch (a +:+ b)).
  change (String ch ?x +:+ ?y) with (String ch (x +:+ y)). by rewrite IH.
Qed.

Lemma substring_whole (x : string) : String.substring 0 (String.length x) x = x.
Proof. induction x as [|ch x IH]; cbn; [done | by rewrite IH]. Qed.

Lemma substring_skip_prefix (a b : string) (n : nat) :
  String.substring (String.length a) n (a +:+ b) = String.substring 0 n b.
Proof.
  induction a as [|ch a IH]; [done|].
  change (String ch a +:+ b) with (String ch (a +:+ b)). by cbn.
Qed.

Lemma substring_split (x : string) (n : nat) :
  (n ≤ String.length x)%nat →
  String.substring 0 n x +:+ String.substring n (String.length x - n) x = x.
Proof.
  revert n. induction x as [|ch x IH]; intros [|n] Hn; cbn in *; try done; try lia.
  - by rewrite substring_whole.
  - change (String ch ?a +:+ ?b) with (String ch (a +:+ b)).
    rewrite IH; [done | lia].
Qed.

(** [endswith] decides [has_suffix]. *)
Lemma endswith_spec (x suffix : string) :
  endswith x suffix = true ↔ has_suffix x suffix.
Proof.
  unfold endswith, has_suffix. rewrite andb_true_iff, Nat.leb_le, String.eqb_eq.
  split.
  - intros [Hle Heq].
    remember (String.length x - String.length suffix) as n eqn:Hn.
    exists (String.substring 0 n x).
    pose proof (substring_split x n ltac:(lia)) as Hsplit.
    replace (String.length x - n) with (String.length suffix) in Hsplit by lia.
    by rewrite Heq in Hsplit.
  - intros [a ->]. rewrite string_length_app. split; [lia|].
    replace (String.length a + String.length suffix - String.length suffix)
      with (String.length a) by lia.
    rewrite substring_skip_prefix. apply substring_whole.
Qed.

Lemma endswith_false (x suffix : string) :
  endswith x suffix = false ↔ ¬ has_suffix x suffix.
Proof.
  rewrite <- endswith_spec. by destruct (endswith x suffix).
Qed.

(** A [.js] file is not a [.py] file. *)
Lemma endswith_js_not_py (x : string) :
  endswith x ".js" = true → endswith x ".py" = false.
Proof.
  unfold endswith. cbn [String.length].
  rewrite andb_true_iff, String.eqb_eq. intros [-> ->]. done.
Qed.

(** ** The monad and the loop *)

Ltac run :=
  unfold mbind, M_bind, mret, M_ret, gets, modify, raise, lift_result,
    messages_append, tool_outputs_append, do_list_tools, do_chat,
    do_call_tool, do_stdio_client, do_open_session, do_initialize,
    interact; cbn.

Ltac same_state :=
  unfold record_event, set_world, set_messages, set_tool_outputs, set_session;
  cbn;
  repeat match goal with H : self_session _ = _ |- _ => rewrite ?H; clear H end;
  rewrite <- ?app_assoc; cbn.

Lemma state_eta s :
  {| self_model := self_model s; self_session := self_session s;
     messages := messages s; tool_outputs := tool_outputs s;
     the_world := the_world s; log := log s |} = s.
Proof. by destruct s. Qed.

Lemma after_calls_nil session s : after_calls session [] s = s.
Proof.
  unfold after_calls; cbn. rewrite !app_nil_r. apply state_eta.
Qed.

(** One turn of the loop never raises, whatever the call does. *)
Lemma run_tool_call_spec session c s :
  run_tool_call session c s = (Returned (), after_calls session [c] s).
Proof.
  unfold run_tool_call, try_except, after_calls, outcome_text, outcome_line,
    call_event. run.
  destruct (call_tool session (call_name c) (call_arguments c) (the_world s))
    as [[e|r] w'] eqn:Hcall; cbn; [done|].
  destruct (serialise r) as [e|content_str] eqn:Hser; cbn; done.
Qed.

Lemma after_calls_cons session c calls s :
  after_calls session calls (after_calls session [c] s)
  = after_calls session (c :: calls) s.
Proof.
  unfold after_calls; cbn.
  destruct (call_tool session (call_name c) (call_arguments c) (the_world s))
    as [r w'] eqn:Hcall; cbn.
  by rewrite <- !app_assoc.
Qed.

(** The whole loop runs every call and returns normally. *)
Lemma for_each_run_tool_call session calls s :
  for_each calls (run_tool_call session) s
  = (Returned (), after_calls session calls s).
Proof.
  revert s. induction calls as [|c calls IH]; intros s; cbn.
  - by rewrite after_calls_nil.
  - unfold mbind, M_bind. rewrite run_tool_call_spec, IH.
    by rewrite after_calls_cons.
Qed.

Lemma call_outcomes_length session calls w :
  length (call_outcomes session calls w) = length calls.
Proof.
  revert w. induction calls as [|c calls IH]; intros w; cbn; [done|].
  destruct (call_tool _ _ _ _) as [r w']. cbn. by rewrite IH.
Qed.

(** ** The paths through [process_query] *)

Lemma pq_not_connected s q :
  self_session s = None →
  process_query q s = (Returned not_connected, s).
Proof. intros Hs. unfold process_query. run. by rewrite Hs. Qed.

Lemma pq_listing_fails s q session e w1 :
  self_session s = Some session →
  list_tools session (the_world s) = (inl e, w1) →
  process_query q s =
    (Raised e,
     {| self_model := self_model s; self_session := self_session s;
        messages := [user_message q]; tool_outputs := tool_outputs s;
        the_world := w1; log := log s ++ [EvListTools] |}).
Proof.
  intros Hs Hl. unfold process_query. run. rewrite Hs. run. rewrite Hl.
  by same_state.
Qed.

Lemma pq_decision_fails s q session tools w1 e w2 :
  self_session s = Some session →
  list_tools session (the_world s) = (inr tools, w1) →
  ollama_chat (self_model s) [user_message q] (Some (available_tools tools)) w1
    = (inl e, w2) →
  process_query q s =
    (Raised e,
     {| self_model := self_model s; self_session := self_session s;
        messages := [user_message q]; tool_outputs := tool_outputs s;
        the_world := w2;
        log := log s ++
          [EvListTools;
           EvChat (self_model s) [user_message q] (Some (available_tools tools))] |}).
Proof.
  intros Hs Hl Hc. unfold process_query. run. rewrite Hs. run. rewrite Hl. cbn.
  rewrite Hc. by same_state.
Qed.

Lemma pq_direct s q session tools w1 response w2 :
  self_session s = Some session →
  list_tools session (the_world s) = (inr tools, w1) →
  ollama_chat (self_model s) [user_message q] (Some (available_tools tools)) w1
    = (inr response, w2) →
  requested_calls (message response) = [] →
  process_query q s =
    (Returned (get_content (message response) no_content),
     {| self_model := self_model s; self_session := self_session s;
        messages := [user_message q; message response];
        tool_outputs := tool_outputs s;
        the_world := w2;
        log := log s ++
          [EvListTools;
           EvChat (self_model s) [user_message q] (Some (available_tools tools))] |}).
Proof.
  intros Hs Hl Hc Hr. unfold process_query. run. rewrite Hs. run. rewrite Hl. cbn.
  rewrite Hc. cbn. rewrite Hr. by same_state.
Qed.

Lemma pq_tools s q session tools w1 response w2 c cs :
  self_session s = Some session →
  list_tools session (the_world s) = (inr tools, w1) →
  ollama_chat (self_model s) [user_message q] (Some (available_tools tools)) w1
    = (inr response, w2) →
  requested_calls (message response) = c :: cs →
  let calls := c :: cs in
  let outs := call_outcomes session calls w2 in
  let msgs :=
    ([user_message q; message response]
     ++ zip_with (λ c o, tool_message (outcome_text c o)) calls outs)%list in
  let lines := zip_with outcome_line calls outs in
  let summary :=
    ollama_chat (self_model s) msgs None (world_after_calls session calls w2) in
  process_query q s =
    (summary_output lines summary.1,
     {| self_model := self_model s; self_session := self_session s;
        messages := msgs;
        tool_outputs := lines;
        the_world := summary.2;
        log := log s ++
          [EvListTools;
           EvChat (self_model s) [user_message q] (Some (available_tools tools))]
          ++ zip_with call_event calls outs
          ++ [EvChat (self_model s) msgs None] |}).
Proof.
  intros Hs Hl Hc Hr calls outs msgs lines summary.
  unfold process_query. run. rewrite Hs. run. rewrite Hl. cbn.
  rewrite Hc. cbn -[for_each]. rewrite Hr.
  cbn -[for_each]. rewrite run_tool_call_spec.
  cbn -[for_each after_calls].
  rewrite for_each_run_tool_call, after_calls_cons.
  unfold after_calls.
  cbn -[call_outcomes world_after_calls zip_with].
  fold calls. fold outs. fold lines.
  change (user_message q :: message response :: ?l) with
    ([user_message q; message response] ++ l)%list.
  fold msgs. fold summary.
  destruct summary as [[e|final_response] w3]; cbn.
  - by same_state.
  - destruct (content (message final_response)); by same_state.
Qed.

(** ** Counting events *)

Lemma events_of_app {A} (m : M A) s (evs : list Event) :
  log (m s).2 = (log s ++ evs)%list → events_of m s = evs.
Proof. intros H. unfold events_of. rewrite H. apply drop_app_length. Qed.

Lemma model_calls_app (l1 l2 : list Event) :
  model_calls (l1 ++ l2) = (model_calls l1 ++ model_calls l2)%list.
Proof. apply filter_app. Qed.

Lemma tool_calls_made_app (l1 l2 : list Event) :
  tool_calls_made (l1 ++ l2) = (tool_calls_made l1 ++ tool_calls_made l2)%list.
Proof. apply filter_app. Qed.

Lemma model_calls_call_events calls (outs : list (result Content)) :
  model_calls (zip_with call_event calls outs) = [].
Proof.
  revert outs. induction calls as [|c calls IH]; intros [|o outs]; try done.
  cbn [zip_with]. unfold model_calls in *.
  rewrite filter_cons_False; [apply IH | compute; tauto].
Qed.

Lemma tool_calls_made_call_events calls (outs : list (result Content)) :
  tool_calls_made (zip_with call_event calls outs) = zip_with call_event calls outs.
Proof.
  revert outs. induction calls as [|c calls IH]; intros [|o outs]; try done.
  cbn [zip_with]. unfold tool_calls_made in *.
  rewrite filter_cons_True; [by rewrite IH | compute; tauto].
Qed.

(** The events of the tool-call path hold two model calls, and exactly the
    requested tool calls. *)
Lemma tool_path_counts (e1 e2 : Event) calls (outs : list (result Content)) :
  is_chat e1 = true → is_chat e2 = true →
  let evs := ([EvListTools; e1] ++ zip_with call_event calls outs ++ [e2])%list in
  model_calls evs = [e1; e2] ∧
  tool_calls_made evs = zip_with call_event calls outs.
Proof.
  intros H1 H2 evs. subst evs.
  rewrite !model_calls_app, !tool_calls_made_app.
  rewrite model_calls_call_events, tool_calls_made_call_events.
  destruct e1, e2; try discriminate. cbn. by rewrite app_nil_r.
Qed.

Lemma tool_calls_present (response : ChatResponse) c cs :
  tool_calls (message response) = Some (c :: cs) →
  requested_calls (message response) = c :: cs.
Proof. unfold requested_calls. by intros ->. Qed.

(** ** The query cycle *)

(** C10. A client without a session ([self.session] is [None]) answers every
    query with the string "Error: Not connected to a server." and leaves
    the state as it was: nothing is listed, the model is not called and no
    tool is called. *)
Theorem process_query_not_connected s q :
  self_session s = None →
  process_query q s = (Returned "Error: Not connected to a server.", s)
  ∧ events_of (process_query q) s = [].
Proof.
  intros Hs. rewrite (pq_not_connected s q Hs). split; [done|].
  apply events_of_app. rewrite (pq_not_connected s q Hs). cbn.
  by rewrite app_nil_r.
Qed.

(** C3. When the decision call answers without tool calls (the key is absent
    or the list is empty), [process_query] has made exactly one model call,
    the decision call with the adapted catalog, and returns the answer's
    text as it is.  When the answer has no content, it returns the
    placeholder "Sorry, I received no content." only if the answer is a
    dict; for the Message object the library returns, [get] finds the unset
    attribute and [process_query] returns [None]. *)
Theorem direct_answer_one_model_call s q session tools w1 response w2 :
  self_session s = Some session →
  list_tools session (the_world s) = (inr tools, w1) →
  ollama_chat (self_model s) [user_message q] (Some (available_tools tools)) w1
    = (inr response, w2) →
  tool_calls (message response) = None ∨ tool_calls (message response) = Some [] →
  (process_query q s).1 =
    Returned match content (message response), class_of (message response) with
             | Some text, _ => Str text
             | None, Dict => Str "Sorry, I received no content."
             | None, OllamaMessage => PyNone
             end
  ∧ model_calls (events_of (process_query q) s) =
      [EvChat (self_model s) [user_message q] (Some (available_tools tools))]
  ∧ length (model_calls (events_of (process_query q) s)) = 1.
Proof.
  intros Hs Hl Hc Hnone.
  assert (requested_calls (message response) = []) as Hr.
  { unfold requested_calls. by destruct Hnone as [-> | ->]. }
  pose proof (pq_direct s q session tools w1 response w2 Hs Hl Hc Hr) as Hrun.
  rewrite (events_of_app (process_query q) s
             [EvListTools;
              EvChat (self_model s) [user_message q] (Some (available_tools tools))])
    by (by rewrite Hrun).
  rewrite Hrun. split; [|split; by cbv].
  unfold get_content. cbn.
  by destruct (content (message response)), (class_of (message response)).
Qed.

(** ** The spec's words and the code's *)

Lemma outcome_text_reported c (o : result Content) :
  outcome_text c o = reported_text c o.
Proof.
  unfold outcome_text, reported_text, serialise.
  destruct o as [[cls msg]|r]; [done|].
  by destruct (if is_dict_or_list r then json_dumps r else py_str r) as [[cls msg]|text].
Qed.

Lemma outcome_line_reported c (o : result Content) :
  outcome_line c o = reported_line c o.
Proof.
  unfold outcome_line, reported_line, serialise, error_text, exn_str.
  destruct o as [[cls msg]|r]; [by rewrite !string_app_assoc|].
  destruct (if is_dict_or_list r then json_dumps r else py_str r) as [[cls msg]|text];
    [by rewrite !string_app_assoc | done].
Qed.

Lemma tool_messages_reported calls (outs : list (result Content)) :
  zip_with (λ c o, tool_message (outcome_text c o)) calls outs
  = zip_with (λ c o, {| role := "tool"; content := Some (reported_text c o);
                        tool_calls := None; class_of := Dict |}) calls outs.
Proof.
  apply zip_with_ext; [|done..]. intros c o. by rewrite outcome_text_reported.
Qed.

Lemma report_lines_reported calls (outs : list (result Content)) :
  zip_with outcome_line calls outs = zip_with reported_line calls outs.
Proof. apply zip_with_ext; [|done..]. apply outcome_line_reported. Qed.

Lemma join_concat (lines : list string) :
  join nl lines = String.concat (String "010" "") lines.
Proof.
  induction lines as [|x [|y rest] IH]; [done..|].
  change (join nl (x :: y :: rest)) with (x +:+ nl +:+ join nl (y :: rest)).
  by rewrite IH.
Qed.

(** C1. When the decision call requests N >= 1 tool calls, [process_query]
    makes exactly two model calls (the decision call with the adapted
    catalog, then the summary call without tools), runs the requested calls
    in the order of the request, and the conversation it ends with is the
    user Message, the model's answer and then one Message of role "tool"
    per requested call, the i-th one carrying the text of the i-th
    requested call's outcome: the order is the model's, whatever the order
    of the catalog. *)
Theorem tool_messages_in_request_order s q session tools w1 response w2 c cs :
  self_session s = Some session →
  list_tools session (the_world s) = (inr tools, w1) →
  ollama_chat (self_model s) [user_message q] (Some (available_tools tools)) w1
    = (inr response, w2) →
  tool_calls (message response) = Some (c :: cs) →
  let calls := c :: cs in
  let outs := call_outcomes session calls w2 in
  let evs := events_of (process_query q) s in
  let user :=
    {| role := "user"; content := Some q; tool_calls := None; class_of := Dict |} in
  let conversation :=
    ([user; message response]
     ++ zip_with (λ c o, {| role := "tool"; content := Some (reported_text c o);
                            tool_calls := None; class_of := Dict |})
          calls outs)%list in
  model_calls evs =
    [EvChat (self_model s) [user] (Some (available_tools tools));
     EvChat (self_model s) conversation None]
  ∧ length (model_calls evs) = 2
  ∧ length outs = length calls
  ∧ tool_calls_made evs =
      zip_with (λ c o, EvCallTool (call_name c) (call_arguments c) o) calls outs
  ∧ messages (process_query q s).2 = conversation.
Proof.
  intros Hs Hl Hc Htc calls outs evs user conversation.
  pose proof (pq_tools s q session tools w1 response w2 c cs Hs Hl Hc
                (tool_calls_present _ _ _ Htc)) as Hrun.
  cbv zeta in Hrun. fold calls outs in Hrun.
  rewrite tool_messages_reported in Hrun.
  change ([user_message q; message response] ++ ?l)%list
    with ([user; message response] ++ l)%list in Hrun.
  fold conversation in Hrun.
  subst evs. erewrite events_of_app by (by rewrite Hrun).
  edestruct (tool_path_counts
               (EvChat (self_model s) [user_message q] (Some (available_tools tools))))
    as [Hchat Hcall]; [done | | rewrite Hchat, Hcall]; [done|].
  rewrite Hrun. cbn [snd messages length]. split_and!; try done.
  apply call_outcomes_length.
Qed.

(** C2. A requested tool call that fails, because the session raises (an
    unknown tool name, a transport error) or because the result cannot be
    turned into text, does not stop the loop: every requested call is made,
    in order, and the last thing [process_query] does is the summary model
    call, on the conversation that holds one Message per call.  A failed
    call leaves, at its own place, a Message of role "tool" whose content is
    "Error calling tool '<name>': <exception text>" and the report line
    "[Error calling tool '<name>': <exception text>]"; a call that succeeded
    leaves, in the same way, a "tool" Message with the result text and the
    line "[Tool '<name>' returned: <text>]". *)
Theorem failed_call_does_not_abort s q session tools w1 response w2 c cs :
  self_session s = Some session →
  list_tools session (the_world s) = (inr tools, w1) →
  ollama_chat (self_model s) [user_message q] (Some (available_tools tools)) w1
    = (inr response, w2) →
  tool_calls (message response) = Some (c :: cs) →
  let calls := c :: cs in
  let outs := call_outcomes session calls w2 in
  let s' := (process_query q s).2 in
  let evs := events_of (process_query q) s in
  length outs = length calls
  ∧ tool_calls_made evs =
      zip_with (λ c o, EvCallTool (call_name c) (call_arguments c) o) calls outs
  ∧ last evs = Some (EvChat (self_model s) (messages s') None)
  ∧ length (messages s') = 2 + length calls
  ∧ length (tool_outputs s') = length calls
  ∧ ∀ i ci o, calls !! i = Some ci → outs !! i = Some o →
      (∀ msg, failed_with o msg →
         messages s' !! (2 + i) =
           Some {| role := "tool";
                   content := Some ("Error calling tool '" +:+ call_name ci
                                    +:+ "': " +:+ msg);
                   tool_calls := None; class_of := Dict |}
         ∧ tool_outputs s' !! i =
             Some ("[Error calling tool '" +:+ call_name ci +:+ "': " +:+ msg +:+ "]"))
      ∧ (∀ r text,
           o = inr r →
           (if is_dict_or_list r then json_dumps r else py_str r) = inr text →
           messages s' !! (2 + i) =
             Some {| role := "tool"; content := Some text;
                     tool_calls := None; class_of := Dict |}
           ∧ tool_outputs s' !! i =
               Some ("[Tool '" +:+ call_name ci +:+ "' returned: " +:+ text +:+ "]")).
Proof.
  intros Hs Hl Hc Htc calls outs s' evs.
  pose proof (pq_tools s q session tools w1 response w2 c cs Hs Hl Hc
                (tool_calls_present _ _ _ Htc)) as Hrun.
  cbv zeta in Hrun. fold calls outs in Hrun.
  rewrite tool_messages_reported, report_lines_reported in Hrun.
  assert (length outs = length calls) as Hlen by apply call_outcomes_length.
  subst evs s'. erewrite events_of_app by (by rewrite Hrun).
  edestruct (tool_path_counts
               (EvChat (self_model s) [user_message q] (Some (available_tools tools))))
    as [_ Hcall]; [done | | rewrite Hcall]; [done|].
  rewrite Hrun. cbn [snd messages tool_outputs].
  split_and!; try done.
  - by rewrite !app_assoc, last_snoc.
  - rewrite length_app, length_zip_with. cbn [length]. lia.
  - rewrite length_zip_with. lia.
  - intros i ci o Hci Ho.
    change ((?a ++ ?l)%list !! (2 + i)) with (l !! i).
    rewrite !lookup_zip_with, Hci, Ho. cbn [mbind option_bind].
    unfold reported_text, reported_line, failed_with. split.
    + intros msg Hfail. destruct o as [[cls m]|r]; [by subst|].
      destruct (if is_dict_or_list r then json_dumps r else py_str r)
        as [[cls m]|text]; [by subst | done].
    + intros r text -> Htext. by rewrite Htext.
Qed.

(** C4. On the tool-call path, once the summary call has answered with a
    text, [process_query] returns one string: the report lines of the
    calls, one per requested call in the order the calls were made, a line
    feed between one line and the next; then two line feeds (a blank line);
    then the summary text. *)
Theorem tool_path_output
    s q session tools w1 response w2 c cs final_response w3 text :
  self_session s = Some session →
  list_tools session (the_world s) = (inr tools, w1) →
  ollama_chat (self_model s) [user_message q] (Some (available_tools tools)) w1
    = (inr response, w2) →
  tool_calls (message response) = Some (c :: cs) →
  let calls := c :: cs in
  let outs := call_outcomes session calls w2 in
  let msgs :=
    ([user_message q; message response]
     ++ zip_with (λ c o, tool_message (outcome_text c o)) calls outs)%list in
  let lines := zip_with reported_line calls outs in
  let line_feed := String "010" "" in
  ollama_chat (self_model s) msgs None (world_after_calls session calls w2)
    = (inr final_response, w3) →
  content (message final_response) = Some text →
  (process_query q s).1 =
    Returned (String.concat line_feed lines +:+ line_feed +:+ line_feed +:+ text)
  ∧ tool_outputs (process_query q s).2 = lines
  ∧ length lines = length calls.
Proof.
  intros Hs Hl Hc Htc calls outs msgs lines line_feed Hsum Htext.
  pose proof (pq_tools s q session tools w1 response w2 c cs Hs Hl Hc
                (tool_calls_present _ _ _ Htc)) as Hrun.
  cbv zeta in Hrun. fold calls outs msgs in Hrun.
  rewrite report_lines_reported in Hrun. fold lines in Hrun.
  rewrite Hrun, Hsum. cbn [fst snd tool_outputs summary_output].
  rewrite Htext, join_concat. split_and!; try done.
  subst lines outs. rewrite length_zip_with, call_outcomes_length. lia.
Qed.

(** C6. When the decision call answers with a text and with a non-empty list
    of tool calls, [process_query] takes the tool-call path: it runs the
    requested calls, makes the summary call, and what it returns is the
    outcome of that path (the report lines and the summary), not the text
    of the decision answer. *)
Theorem tool_calls_take_precedence s q session tools w1 response w2 text c cs :
  self_session s = Some session →
  list_tools session (the_world s) = (inr tools, w1) →
  ollama_chat (self_model s) [user_message q] (Some (available_tools tools)) w1
    = (inr response, w2) →
  content (message response) = Some text →
  tool_calls (message response) = Some (c :: cs) →
  let calls := c :: cs in
  let outs := call_outcomes session calls w2 in
  let msgs :=
    ([user_message q; message response]
     ++ zip_with (λ c o, tool_message (outcome_text c o)) calls outs)%list in
  let lines := zip_with outcome_line calls outs in
  let summary :=
    ollama_chat (self_model s) msgs None (world_after_calls session calls w2) in
  events_of (process_query q) s =
    ([EvListTools;
      EvChat (self_model s) [user_message q] (Some (available_tools tools))]
     ++ zip_with call_event calls outs
     ++ [EvChat (self_model s) msgs None])%list
  ∧ (process_query q s).1 = summary_output lines summary.1.
Proof.
  intros Hs Hl Hc _ Htc calls outs msgs lines summary.
  pose proof (pq_tools s q session tools w1 response w2 c cs Hs Hl Hc
                (tool_calls_present _ _ _ Htc)) as Hrun.
  cbv zeta in Hrun. fold calls outs msgs lines summary in Hrun.
  split; [|by rewrite Hrun].
  apply events_of_app. by rewrite Hrun.
Qed.

(** C8. A failure of the tool listing fails the whole query: the listing's
    exception leaves [process_query] as it was raised, before any model call
    or tool call, with only the user Message in the conversation.  A failure
    of the summary call fails the whole query as well: its exception leaves
    [process_query], and the conversation holds no Message for it, only the
    user Message, the decision answer and the [tool] Messages of the calls. *)
Theorem listing_and_summary_failures_are_fatal s q session :
  self_session s = Some session →
  (∀ e w1,
     list_tools session (the_world s) = (inl e, w1) →
     (process_query q s).1 = Raised e
     ∧ events_of (process_query q) s = [EvListTools]
     ∧ messages (process_query q s).2 = [user_message q])
  ∧ (∀ tools w1 response w2 c cs e w3,
     list_tools session (the_world s) = (inr tools, w1) →
     ollama_chat (self_model s) [user_message q] (Some (available_tools tools)) w1
       = (inr response, w2) →
     tool_calls (message response) = Some (c :: cs) →
     let calls := c :: cs in
     let outs := call_outcomes session calls w2 in
     let msgs :=
       ([user_message q; message response]
        ++ zip_with (λ c o, tool_message (outcome_text c o)) calls outs)%list in
     ollama_chat (self_model s) msgs None (world_after_calls session calls w2)
       = (inl e, w3) →
     (process_query q s).1 = Raised e
     ∧ last (events_of (process_query q) s) = Some (EvChat (self_model s) msgs None)
     ∧ messages (process_query q s).2 = msgs
     ∧ length (model_calls (events_of (process_query q) s)) = 2).
Proof.
  intros Hs. split.
  - intros e w1 Hl.
    pose proof (pq_listing_fails s q session e w1 Hs Hl) as Hrun.
    erewrite events_of_app by (by rewrite Hrun). by rewrite Hrun.
  - intros tools w1 response w2 c cs e w3 Hl Hc Htc calls outs msgs Hsum.
    pose proof (pq_tools s q session tools w1 response w2 c cs Hs Hl Hc
                  (tool_calls_present _ _ _ Htc)) as Hrun.
    cbv zeta in Hrun. fold calls outs msgs in Hrun.
    erewrite events_of_app by (by rewrite Hrun).
    edestruct (tool_path_counts
                 (EvChat (self_model s) [user_message q] (Some (available_tools tools))))
      as [Hchat _]; [done | | rewrite Hchat]; [done|].
    rewrite Hrun, Hsum. cbn [fst snd messages summary_output].
    split_and!; try done.
    by rewrite !app_assoc, last_snoc.
Qed.

Ltac few_calls :=
  cbv; split; [lia | split; [lia | intros H; by destruct H]].

Lemma pq_call_counts s q :
  let evs := events_of (process_query q) s in
  (length (model_calls evs) ≤ 2)%nat
  ∧ (length (model_calls evs) = 2 ↔ tool_calls_made evs ≠ []).
Proof.
  intros evs. subst evs.
  destruct (self_session s) as [session|] eqn:Hs.
  2: { erewrite events_of_app
         by (rewrite (pq_not_connected s q Hs); symmetry; apply app_nil_r).
       by few_calls. }
  destruct (list_tools session (the_world s)) as [[e|tools] w1] eqn:Hl.
  { erewrite events_of_app by (by rewrite (pq_listing_fails s q session e w1 Hs Hl)).
    by few_calls. }
  destruct (ollama_chat (self_model s) [user_message q]
              (Some (available_tools tools)) w1) as [[e|response] w2] eqn:Hc.
  { erewrite events_of_app
      by (by rewrite (pq_decision_fails s q session tools w1 e w2 Hs Hl Hc)).
    by few_calls. }
  destruct (requested_calls (message response)) as [|c cs] eqn:Hr.
  { erewrite events_of_app
      by (by rewrite (pq_direct s q session tools w1 response w2 Hs Hl Hc Hr)).
    by few_calls. }
  pose proof (pq_tools s q session tools w1 response w2 c cs Hs Hl Hc Hr) as Hrun.
  cbv zeta in Hrun.
  erewrite events_of_app by (by rewrite Hrun).
  edestruct (tool_path_counts
               (EvChat (self_model s) [user_message q] (Some (available_tools tools))))
    as [Hchat Hcall]; [done | | rewrite Hchat, Hcall]; [done|].
  cbn [length]. split; [lia | split; [|done]]. intros _.
  pose proof (call_outcomes_length session (c :: cs) w2) as Hlen.
  destruct (call_outcomes session (c :: cs) w2); [discriminate | done].
Qed.

(** The five ways through [process_query], with the equation of each. *)
Ltac pq_cases s q :=
  let session := fresh "session" in
  let Hs := fresh "Hs" in
  let Hl := fresh "Hl" in
  let Hc := fresh "Hc" in
  let Hr := fresh "Hr" in
  let Hrun := fresh "Hrun" in
  destruct (self_session s) as [session|] eqn:Hs;
  [ let e := fresh "e" in
    let tools := fresh "tools" in
    let w1 := fresh "w1" in
    destruct (list_tools session (the_world s)) as [[e|tools] w1] eqn:Hl;
    [ pose proof (pq_listing_fails s q session e w1 Hs Hl) as Hrun
    | let response := fresh "response" in
      let w2 := fresh "w2" in
      destruct (ollama_chat (self_model s) [user_message q]
                  (Some (available_tools tools)) w1)
        as [[e|response] w2] eqn:Hc;
      [ pose proof (pq_decision_fails s q session tools w1 e w2 Hs Hl Hc) as Hrun
      | let c := fresh "c" in
        let cs := fresh "cs" in
        destruct (requested_calls (message response)) as [|c cs] eqn:Hr;
        [ pose proof (pq_direct s q session tools w1 response w2 Hs Hl Hc Hr)
            as Hrun
        | pose proof (pq_tools s q session tools w1 response w2 c cs Hs Hl Hc Hr)
            as Hrun;
          cbv zeta in Hrun ] ] ]
  | pose proof (pq_not_connected s q Hs) as Hrun ].

(** C5, amended. A query costs zero, one or two model calls, never a third:
    none when the client has no session or the tool listing fails; exactly
    one, the decision call, when that call fails or its answer requests no
    tool, and then no tool is called; exactly two, the decision call and one
    summary call made without tools, when the answer requests tools, and
    then the tools called are the requested ones. *)
Theorem at_most_two_model_calls s q :
  let evs := events_of (process_query q) s in
  let user :=
    {| role := "user"; content := Some q; tool_calls := None; class_of := Dict |} in
  (length (model_calls evs) ≤ 2)%nat
  ∧ (length (model_calls evs) = 2 ↔ tool_calls_made evs ≠ [])
  ∧ (self_session s = None → model_calls evs = [])
  ∧ (∀ session, self_session s = Some session →
       match list_tools session (the_world s) with
       | (inl _, _) => model_calls evs = []
       | (inr tools, w1) =>
         let decision :=
           EvChat (self_model s) [user] (Some (available_tools tools)) in
         match ollama_chat (self_model s) [user] (Some (available_tools tools)) w1 with
         | (inl _, _) => model_calls evs = [decision] ∧ tool_calls_made evs = []
         | (inr response, w2) =>
           match tool_calls (message response) with
           | None | Some [] =>
             model_calls evs = [decision] ∧ tool_calls_made evs = []
           | Some (c :: cs) =>
             model_calls evs =
               [decision;
                EvChat (self_model s) (messages (process_query q s).2) None]
             ∧ tool_calls_made evs =
                 zip_with (λ c o, EvCallTool (call_name c) (call_arguments c) o)
                   (c :: cs) (call_outcomes session (c :: cs) w2)
           end
         end
       end).
Proof.
  intros evs user. subst evs.
  destruct (pq_call_counts s q) as [Hmost Htwo].
  split; [exact Hmost|]. split; [exact Htwo|]. clear Hmost Htwo.
  pq_cases s q.
  - erewrite events_of_app by (by rewrite Hrun).
    split; [done|].
    intros ? [= <-]. by rewrite Hl.
  - erewrite events_of_app by (by rewrite Hrun).
    split; [done|].
    intros ? [= <-]. rewrite Hl. cbv zeta.
    change [user] with [user_message q]. by rewrite Hc.
  - erewrite events_of_app by (by rewrite Hrun).
    split; [done|].
    intros ? [= <-]. rewrite Hl. cbv zeta.
    change [user] with [user_message q]. rewrite Hc.
    unfold requested_calls in Hr.
    by destruct (tool_calls (message response)) as [[|]|].
  - erewrite events_of_app by (by rewrite Hrun).
    edestruct (tool_path_counts
                 (EvChat (self_model s) [user_message q] (Some (available_tools tools))))
      as [Hchat Hcall]; [done | | rewrite Hchat, Hcall]; [done|].
    split; [done|].
    intros ? [= <-]. rewrite Hl. cbv zeta.
    change [user] with [user_message q]. rewrite Hc.
    unfold requested_calls in Hr.
    destruct (tool_calls (message response)) as [[|]|]; try done.
    cbn in Hr. injection Hr as -> ->. by rewrite Hrun.
  - erewrite events_of_app
      by (rewrite Hrun; symmetry; apply app_nil_r).
    split; [done | congruence].
Qed.

(** C7. The catalog adapter is a function of the descriptor list alone: it
    gives one schema entry per descriptor, the i-th entry made from the
    i-th descriptor, of type "function", with the descriptor's name and
    description and an "object" parameter block that takes [properties] and
    [required] from the input schema, an empty mapping and an empty list
    standing in for the ones the schema does not have. *)
Theorem available_tools_in_catalog_order (tools : list Tool) :
  length (available_tools tools) = length tools
  ∧ ∀ i tool, tools !! i = Some tool →
      ∃ entry, available_tools tools !! i = Some entry
        ∧ schema_type entry = "function"
        ∧ function_name (function entry) = name tool
        ∧ function_description (function entry) = description tool
        ∧ parameters_type (parameters (function entry)) = "object"
        ∧ properties (parameters (function entry)) =
            match inputSchema tool !! "properties" with
            | Some p => p
            | None => JObj ∅
            end
        ∧ required (parameters (function entry)) =
            match inputSchema tool !! "required" with
            | Some r => r
            | None => JArr []
            end.
Proof.
  unfold available_tools. split; [apply length_fmap|].
  intros i tool Hi. exists (tool_schema tool).
  rewrite list_lookup_fmap, Hi. by cbn.
Qed.

(** ** Connecting *)

Ltac launched :=
  unfold events_of; run;
  repeat match goal with
    | |- context [stdio_client ?p ?w] => destruct (stdio_client p w) as [[?|?] ?]; cbn
    | |- context [open_session ?t ?w] => destruct (open_session t w) as [[?|?] ?]; cbn
    | |- context [initialize ?c ?w] => destruct (initialize c w) as [[?|?] ?]; cbn
    | |- context [list_tools ?c ?w] => destruct (list_tools c w) as [[?|?] ?]; cbn
    end;
  rewrite <- ?app_assoc; cbn;
  eexists; apply drop_app_length.

(** C9. [connect_to_server] rejects every path that ends with neither ".py"
    nor ".js" with the ValueError "Server script must be a .py or .js file"
    (the spec's UnsupportedScriptKind) and touches nothing: no subprocess is
    launched.  For a ".py" path the first thing it does is launch the
    command "python", for a ".js" path the command "node", in both cases
    with the script path as the only argument. *)
Theorem connect_to_server_runner s path :
  (¬ has_suffix path ".py" → ¬ has_suffix path ".js" →
     connect_to_server path s =
       (Raised (Exn "ValueError" "Server script must be a .py or .js file"), s))
  ∧ (has_suffix path ".py" →
     ∃ rest, events_of (connect_to_server path) s =
       EvLaunch {| command := "python"; args := [path]; env := None |} :: rest)
  ∧ (has_suffix path ".js" →
     ∃ rest, events_of (connect_to_server path) s =
       EvLaunch {| command := "node"; args := [path]; env := None |} :: rest).
Proof.
  split_and!.
  - intros Hpy%endswith_false Hjs%endswith_false.
    unfold connect_to_server. by rewrite Hpy, Hjs.
  - intros Hpy%endswith_spec.
    unfold connect_to_server. rewrite Hpy. cbn [orb negb]. launched.
  - intros Hjs%endswith_spec.
    unfold connect_to_server. rewrite Hjs, (endswith_js_not_py _ Hjs).
    cbn [orb negb]. launched.
Qed.

(** ** More on the query cycle *)

Lemma pq_keeps_client s q :
  self_model (process_query q s).2 = self_model s
  ∧ self_session (process_query q s).2 = self_session s.
Proof. pq_cases s q; by rewrite Hrun. Qed.

(** X1. Whatever happens to a query, [process_query] leaves the client as it
    found it: the same model name and the same session (or none). *)
Theorem process_query_keeps_client s q :
  self_model (process_query q s).2 = self_model s
  ∧ self_session (process_query q s).2 = self_session s.
Proof. apply pq_keeps_client. Qed.

(** X2. A query starts from a clean slate: the messages and the report lines
    left by an earlier query change neither what [process_query] returns,
    nor what it does to the world, nor (on a connected client) the
    conversation it ends with. *)
Theorem process_query_forgets_history s q (ms : list Message) (os : list string) :
  let s2 := set_tool_outputs os (set_messages ms s) in
  (process_query q s2).1 = (process_query q s).1
  ∧ the_world (process_query q s2).2 = the_world (process_query q s).2
  ∧ log (process_query q s2).2 = log (process_query q s).2
  ∧ (self_session s ≠ None →
     messages (process_query q s2).2 = messages (process_query q s).2).
Proof.
  intros s2. pq_cases s q.
  - rewrite Hrun, (pq_listing_fails s2 q session e w1 Hs Hl). by cbn.
  - rewrite Hrun, (pq_decision_fails s2 q session tools w1 e w2 Hs Hl Hc). by cbn.
  - rewrite Hrun, (pq_direct s2 q session tools w1 response w2 Hs Hl Hc Hr). by cbn.
  - rewrite Hrun.
    pose proof (pq_tools s2 q session tools w1 response w2 c cs Hs Hl Hc Hr) as Hrun2.
    cbv zeta in Hrun2. rewrite Hrun2. by cbn.
  - rewrite Hrun, (pq_not_connected s2 q Hs). by cbn.
Qed.

(** X3. A failure of the decision call fails the whole query: its exception
    leaves [process_query], after the listing and that one model call; no
    tool is called and the conversation still holds only the user Message. *)
Theorem decision_failure_is_fatal s q session tools w1 e w2 :
  self_session s = Some session →
  list_tools session (the_world s) = (inr tools, w1) →
  ollama_chat (self_model s) [user_message q] (Some (available_tools tools)) w1
    = (inl e, w2) →
  (process_query q s).1 = Raised e
  ∧ events_of (process_query q) s =
      [EvListTools;
       EvChat (self_model s) [user_message q] (Some (available_tools tools))]
  ∧ messages (process_query q s).2 = [user_message q]
  ∧ the_world (process_query q s).2 = w2.
Proof.
  intros Hs Hl Hc.
  pose proof (pq_decision_fails s q session tools w1 e w2 Hs Hl Hc) as Hrun.
  erewrite events_of_app by (by rewrite Hrun). by rewrite Hrun.
Qed.

(** X4. When the summary call answers without a ["content"] key,
    [process_query] raises KeyError('content'), although every requested
    tool was called and every report line was collected. *)
Theorem summary_without_content_raises
    s q session tools w1 response w2 c cs final_response w3 :
  self_session s = Some session →
  list_tools session (the_world s) = (inr tools, w1) →
  ollama_chat (self_model s) [user_message q] (Some (available_tools tools)) w1
    = (inr response, w2) →
  tool_calls (message response) = Some (c :: cs) →
  let calls := c :: cs in
  let outs := call_outcomes session calls w2 in
  let msgs :=
    ([user_message q; message response]
     ++ zip_with (λ c o, tool_message (outcome_text c o)) calls outs)%list in
  ollama_chat (self_model s) msgs None (world_after_calls session calls w2)
    = (inr final_response, w3) →
  content (message final_response) = None →
  (process_query q s).1 = Raised (Exn "KeyError" "'content'")
  ∧ tool_calls_made (events_of (process_query q) s) = zip_with call_event calls outs
  ∧ tool_outputs (process_query q s).2 = zip_with outcome_line calls outs.
Proof.
  intros Hs Hl Hc Htc calls outs msgs Hsum Hnone.
  pose proof (pq_tools s q session tools w1 response w2 c cs Hs Hl Hc
                (tool_calls_present _ _ _ Htc)) as Hrun.
  cbv zeta in Hrun. fold calls outs msgs in Hrun.
  erewrite events_of_app by (by rewrite Hrun).
  edestruct (tool_path_counts
               (EvChat (self_model s) [user_message q] (Some (available_tools tools))))
    as [_ Hcall]; [done | | rewrite Hcall]; [done|].
  rewrite Hrun, Hsum. cbn [fst snd tool_outputs summary_output].
  by rewrite Hnone.
Qed.

(** X5. The model calls of a query have one of three shapes: none; the
    decision call alone; or the decision call followed by the summary call.
    The decision call always carries the adapted form of the catalog the
    session has just listed, and a conversation of just the user Message;
    the summary call never carries tools and sees the whole conversation
    the query ends with. *)
Theorem model_calls_shape s q :
  let chats := model_calls (events_of (process_query q) s) in
  let user :=
    {| role := "user"; content := Some q; tool_calls := None; class_of := Dict |} in
  chats = []
  ∨ ∃ session tools w1,
      self_session s = Some session
      ∧ list_tools session (the_world s) = (inr tools, w1)
      ∧ (chats = [EvChat (self_model s) [user] (Some (available_tools tools))]
         ∨ chats = [EvChat (self_model s) [user] (Some (available_tools tools));
                    EvChat (self_model s) (messages (process_query q s).2) None]).
Proof.
  intros chats user. subst chats. pq_cases s q.
  - left. erewrite events_of_app by (by rewrite Hrun). by cbv.
  - right. exists session, tools, w1. split_and!; [done..|]. left.
    erewrite events_of_app by (by rewrite Hrun). by cbv.
  - right. exists session, tools, w1. split_and!; [done..|]. left.
    erewrite events_of_app by (by rewrite Hrun). by cbv.
  - right. exists session, tools, w1. split_and!; [done..|]. right.
    erewrite events_of_app by (by rewrite Hrun).
    edestruct (tool_path_counts
                 (EvChat (self_model s) [user_message q] (Some (available_tools tools))))
      as [Hchat _]; [done | | rewrite Hchat]; [done|].
    by rewrite Hrun.
  - left. erewrite events_of_app
      by (rewrite Hrun; symmetry; apply app_nil_r).
    done.
Qed.

Lemma pq_lists_first s q session :
  self_session s = Some session →
  ∃ rest, events_of (process_query q) s = EvListTools :: rest
    ∧ Forall (λ ev, is_chat ev = true ∨ is_call ev = true) rest.
Proof.
  intros Hsession. pq_cases s q; try congruence.
  - exists []. erewrite events_of_app by (by rewrite Hrun). done.
  - eexists. erewrite events_of_app by (by rewrite Hrun). split; [done|].
    repeat constructor.
  - eexists. erewrite events_of_app by (by rewrite Hrun). split; [done|].
    repeat constructor.
  - eexists. erewrite events_of_app by (by rewrite Hrun). split; [done|].
    constructor; [by left|]. apply Forall_app. split; [|repeat constructor].
    apply Forall_forall. intros ev Hev.
    apply elem_of_lookup_zip_with in Hev as (i & ci & o & -> & _ & _).
    by right.
Qed.

(** X6. On a connected client every query lists the provider's tools
    afresh: the listing is the first thing [process_query] does, and it
    happens once; everything after it is a model call or a tool call. *)
Theorem listing_comes_first s q session :
  self_session s = Some session →
  ∃ rest, events_of (process_query q) s = EvListTools :: rest
    ∧ Forall (λ ev, is_chat ev = true ∨ is_call ev = true) rest.
Proof. apply pq_lists_first. Qed.

(** ** More on connecting *)

Lemma accepted_path (path : string) :
  has_suffix path ".py" ∨ has_suffix path ".js" →
  negb (endswith path ".py" || endswith path ".js") = false.
Proof.
  intros [H%endswith_spec | H%endswith_spec]; rewrite H; [done|].
  by rewrite orb_true_r.
Qed.

Lemma connect_launch_fails s path e w1 :
  has_suffix path ".py" ∨ has_suffix path ".js" →
  let server_params :=
    {| command := if endswith path ".py" then "python" else "node";
       args := [path]; env := None |} in
  stdio_client server_params (the_world s) = (inl e, w1) →
  connect_to_server path s =
    (Raised e, record_event (EvLaunch server_params) (set_world w1 s)).
Proof.
  intros Hok p Hlaunch. unfold connect_to_server.
  rewrite (accepted_path _ Hok). fold p. run. by rewrite Hlaunch.
Qed.

Lemma connect_open_fails s path t w1 e w2 :
  has_suffix path ".py" ∨ has_suffix path ".js" →
  let server_params :=
    {| command := if endswith path ".py" then "python" else "node";
       args := [path]; env := None |} in
  stdio_client server_params (the_world s) = (inr t, w1) →
  open_session t w1 = (inl e, w2) →
  connect_to_server path s =
    (Raised e,
     record_event EvOpenSession
       (set_world w2 (record_event (EvLaunch server_params) (set_world w1 s)))).
Proof.
  intros Hok p Hlaunch Hopen. unfold connect_to_server.
  rewrite (accepted_path _ Hok). fold p. run. rewrite Hlaunch. cbn.
  by rewrite Hopen.
Qed.

(** X7. When the launch, the session, the handshake and the first listing
    all succeed, [connect_to_server] returns normally, the client holds the
    session that was opened, and what it did is exactly: launch the runner
    on the script, open the session, initialize it, list the tools. *)
Theorem connect_success s path t w1 session w2 w3 tools w4 :
  has_suffix path ".py" ∨ has_suffix path ".js" →
  let server_params :=
    {| command := if endswith path ".py" then "python" else "node";
       args := [path]; env := None |} in
  stdio_client server_params (the_world s) = (inr t, w1) →
  open_session t w1 = (inr session, w2) →
  initialize session w2 = (inr (), w3) →
  list_tools session w3 = (inr tools, w4) →
  (connect_to_server path s).1 = Returned ()
  ∧ self_session (connect_to_server path s).2 = Some session
  ∧ the_world (connect_to_server path s).2 = w4
  ∧ events_of (connect_to_server path) s =
      [EvLaunch server_params; EvOpenSession; EvInitialize; EvListTools].
Proof.
  intros Hok p Hlaunch Hopen Hinit Hlist.
  assert (connect_to_server path s =
            (Returned (),
             {| self_model := self_model s; self_session := Some session;
                messages := messages s; tool_outputs := tool_outputs s;
                the_world := w4;
                log := log s ++
                  [EvLaunch p; EvOpenSession; EvInitialize; EvListTools] |}))
    as Hrun.
  { unfold connect_to_server. rewrite (accepted_path _ Hok). fold p. run.
    rewrite Hlaunch. cbn. rewrite Hopen. cbn. rewrite Hinit. cbn.
    rewrite Hlist. by same_state. }
  erewrite events_of_app by (by rewrite Hrun). by rewrite Hrun.
Qed.

(** X8. When the launch fails, or the session cannot be opened,
    [connect_to_server] raises that exception and the client's session is
    what it was; a client that had none still answers every query with
    "Error: Not connected to a server.". *)
Theorem connect_failure_leaves_disconnected s path e :
  has_suffix path ".py" ∨ has_suffix path ".js" →
  let server_params :=
    {| command := if endswith path ".py" then "python" else "node";
       args := [path]; env := None |} in
  (∃ w1, stdio_client server_params (the_world s) = (inl e, w1))
  ∨ (∃ t w1 w2, stdio_client server_params (the_world s) = (inr t, w1)
       ∧ open_session t w1 = (inl e, w2)) →
  (connect_to_server path s).1 = Raised e
  ∧ self_session (connect_to_server path s).2 = self_session s
  ∧ (self_session s = None →
     ∀ q, (process_query q (connect_to_server path s).2).1
          = Returned "Error: Not connected to a server.").
Proof.
  intros Hok p [(w1 & Hlaunch) | (t & w1 & w2 & Hlaunch & Hopen)].
  - rewrite (connect_launch_fails s path e w1 Hok Hlaunch). split_and!; try done.
    intros Hnone q. by rewrite pq_not_connected.
  - rewrite (connect_open_fails s path t w1 e w2 Hok Hlaunch Hopen).
    split_and!; try done.
    intros Hnone q. by rewrite pq_not_connected.
Qed.

(** X9. When the handshake fails, [connect_to_server] raises that exception
    but the client already holds the session: [self.session] was assigned
    before [initialize] was awaited.  A query on that client does not answer
    "not connected"; it goes on to list the tools. *)
Theorem failed_handshake_leaves_session s path t w1 session w2 e w3 :
  has_suffix path ".py" ∨ has_suffix path ".js" →
  let server_params :=
    {| command := if endswith path ".py" then "python" else "node";
       args := [path]; env := None |} in
  stdio_client server_params (the_world s) = (inr t, w1) →
  open_session t w1 = (inr session, w2) →
  initialize session w2 = (inl e, w3) →
  (connect_to_server path s).1 = Raised e
  ∧ self_session (connect_to_server path s).2 = Some session
  ∧ events_of (connect_to_server path) s =
      [EvLaunch server_params; EvOpenSession; EvInitialize]
  ∧ ∀ q, ∃ rest,
      events_of (process_query q) (connect_to_server path s).2 = EvListTools :: rest.
Proof.
  intros Hok p Hlaunch Hopen Hinit.
  assert (connect_to_server path s =
            (Raised e,
             {| self_model := self_model s; self_session := Some session;
                messages := messages s; tool_outputs := tool_outputs s;
                the_world := w3;
                log := log s ++ [EvLaunch p; EvOpenSession; EvInitialize] |}))
    as Hrun.
  { unfold connect_to_server. rewrite (accepted_path _ Hok). fold p. run.
    rewrite Hlaunch. cbn. rewrite Hopen. cbn. rewrite Hinit. by same_state. }
  erewrite events_of_app by (by rewrite Hrun). rewrite Hrun.
  split_and!; try done.
  intros q. edestruct (pq_lists_first) as (rest & Hrest & _); [|by exists rest].
  done.
Qed.

(** X10. A [connect_to_server] that returns normally has always left a
    session in the client, so the next query is not answered with "not
    connected": it starts by listing the tools. *)
Theorem connected_after_connect s path :
  (connect_to_server path s).1 = Returned () →
  is_Some (self_session (connect_to_server path s).2)
  ∧ ∀ q, ∃ rest,
      events_of (process_query q) (connect_to_server path s).2 = EvListTools :: rest.
Proof.
  intros Hret.
  assert (is_Some (self_session (connect_to_server path s).2)) as [session Hsession].
  { revert Hret. unfold connect_to_server.
    destruct (negb _); [by run|]. run.
    repeat match goal with
      | |- context [stdio_client ?p ?w] => destruct (stdio_client p w) as [[?|?] ?]; cbn
      | |- context [open_session ?t ?w] => destruct (open_session t w) as [[?|?] ?]; cbn
      | |- context [initialize ?c ?w] => destruct (initialize c w) as [[?|?] ?]; cbn
      | |- context [list_tools ?c ?w] => destruct (list_tools c w) as [[?|?] ?]; cbn
      end; try done. }
  split; [by exists session|].
  intros q. destruct (pq_lists_first _ q session Hsession) as (rest & Hrest & _).
  by exists rest.
Qed.

(** ** The chat loop and [main] *)

Section Shell_properties.
Context `{Con : @Console Collab}.

Implicit Types (stdin : list console_input).

(** X11. Blank lines are skipped wherever they stand: taking every line
    that is empty after stripping out of the console changes neither what
    the chat loop shows nor the state it leaves. *)
Theorem chat_loop_skips_blank_lines stdin s :
  py_lower "" ≠ "quit" →
  chat_loop (filter (λ i, ¬ is_blank i) stdin) s = chat_loop stdin s.
Proof.
  intros Hlow. apply String.eqb_neq in Hlow.
  revert s. induction stdin as [|[line|] rest IH]; intros s; [done| |].
  - destruct (String.eqb (py_strip line) "") eqn:Hblank.
    + rewrite filter_cons_False by (cbn; rewrite Hblank; cbv [Is_true]; tauto).
      rewrite IH. cbn. apply String.eqb_eq in Hblank as Hempty.
      rewrite Hempty, Hlow. done.
    + rewrite filter_cons_True by (cbn; rewrite Hblank; cbv [Is_true]; tauto).
      cbn. rewrite Hblank.
      destruct (String.eqb (py_lower (py_strip line)) "quit"); [done|].
      destruct (process_query (py_strip line) s) as [[e|response] s'].
      * destruct (is_eof e); [done|]. by rewrite IH.
      * by rewrite IH.
  - rewrite filter_cons_True by (cbv [is_blank Is_true]; tauto). done.
Qed.

(** X12. On a client without a session the chat loop touches nothing: the
    state it leaves is the state it started from, and everything it shows
    is the answer "Error: Not connected to a server.". *)
Theorem chat_loop_not_connected stdin s :
  self_session s = None →
  (chat_loop stdin s).2 = s
  ∧ Forall (λ x, x = Answer "Error: Not connected to a server.") (chat_loop stdin s).1.
Proof.
  intros Hs. induction stdin as [|[line|] rest IH]; cbn; try done.
  destruct (String.eqb (py_lower (py_strip line)) "quit"); [done|].
  destruct (String.eqb (py_strip line) ""); [done|].
  rewrite (pq_not_connected s _ Hs).
  destruct (chat_loop rest s) as [later s'']. cbn in *.
  destruct IH as [-> Hall]. split; [done|]. by constructor.
Qed.

(** X13. The line "quit" and a KeyboardInterrupt end the loop exactly as
    the end of the input does: nothing that follows them on the console is
    read, whatever it is. *)
Theorem chat_loop_stops_reading stdin i after s :
  ends_loop i = true →
  chat_loop (stdin ++ i :: after) s = chat_loop stdin s.
Proof.
  intros Hend. revert s. induction stdin as [|[line|] rest IH]; intros s.
  - destruct i as [line|]; cbn in *; [by rewrite Hend | done].
  - cbn.
    destruct (String.eqb (py_lower (py_strip line)) "quit"); [done|].
    destruct (String.eqb (py_strip line) ""); [apply IH|].
    destruct (process_query (py_strip line) s) as [[e|response] s'].
    + destruct (is_eof e); [done|]. by rewrite IH.
    + by rewrite IH.
  - done.
Qed.

(** X14. The chat loop never changes which model the client uses nor its
    session, however many queries it ran and however they ended. *)
Theorem chat_loop_keeps_client stdin s :
  self_model (chat_loop stdin s).2 = self_model s
  ∧ self_session (chat_loop stdin s).2 = self_session s.
Proof.
  revert s. induction stdin as [|[line|] rest IH]; intros s; cbn; try done.
  destruct (String.eqb (py_lower (py_strip line)) "quit"); [done|].
  destruct (String.eqb (py_strip line) ""); [apply IH|].
  pose proof (pq_keeps_client s (py_strip line)) as [Hm Hs].
  destruct (process_query (py_strip line) s) as [[e|response] s'] eqn:Hq;
    cbn in Hm, Hs.
  - destruct (is_eof e); [done|].
    specialize (IH s'). destruct (chat_loop rest s') as [later s''].
    cbn in *. destruct IH as [-> ->]. done.
  - specialize (IH s'). destruct (chat_loop rest s') as [later s''].
    cbn in *. destruct IH as [-> ->]. done.
Qed.

(** X15. [main] without a script argument exits with status 1 and touches
    nothing.  With a script path that ends with neither ".py" nor ".js" it
    launches nothing and reads nothing from the console, but it still
    cleans up: it fails with the ValueError of [connect_to_server], or with
    the exception of the cleanup when that one raises too. *)
Theorem main_rejects_bad_invocation stdin w :
  (∀ argv, (length argv < 2)%nat → main argv stdin w = (Exited 1, [], (w, [])))
  ∧ (∀ prog path more,
       ¬ has_suffix path ".py" → ¬ has_suffix path ".js" →
       main (prog :: path :: more) stdin w =
         (Failed match (aclose w).1 with
                 | inl e' => e'
                 | inr _ => Exn "ValueError" "Server script must be a .py or .js file"
                 end,
          [], ((aclose w).2, []))).
Proof.
  split.
  - intros [|prog [|path more]] Hlen; cbn in *; try done. lia.
  - intros prog path more Hpy%endswith_false Hjs%endswith_false.
    unfold main, connect_to_server, cleanup. rewrite Hpy, Hjs. cbn.
    by destruct (aclose w) as [[e'|[]] w'].
Qed.

(** X16. When [connect_to_server] fails, [main] never enters the chat loop:
    nothing is shown, the console does not matter, the cleanup runs on the
    world the failed connect left, and [main] fails with the exception of
    the connect (or of the cleanup, when that raises as well). *)
Theorem main_failed_connect_skips_chat prog path more stdin w e :
  (connect_to_server path (new_client "gpt-oss:20b" w)).1 = Raised e →
  let s1 := (connect_to_server path (new_client "gpt-oss:20b" w)).2 in
  main (prog :: path :: more) stdin w =
    (Failed match (aclose (the_world s1)).1 with inl e' => e' | inr _ => e end,
     [], ((aclose (the_world s1)).2, log s1))
  ∧ main (prog :: path :: more) stdin w = main (prog :: path :: more) [] w.
Proof.
  intros Hfail s1. subst s1. unfold main, cleanup.
  destruct (connect_to_server path (new_client "gpt-oss:20b" w)) as [[e0|r] s1];
    cbn in *; [|done].
  injection Hfail as ->.
  by destruct (aclose (the_world s1)) as [[e'|[]] w'].
Qed.

(** X17. [math_web_search] never raises: it makes one model call, to
    "qwen3:1.7b", with the query as the only Message and without tools, and
    returns the answer's text, or "Sorry, the web search is currently
    unavailable." when the call raised or the answer has no content. *)
Theorem math_web_search_never_raises q s :
  (math_web_search q s).1 =
    Returned match (ollama_chat "qwen3:1.7b" [user_message q] None (the_world s)).1 with
             | inr response =>
               match content (message response) with
               | Some text => text
               | None => "Sorry, the web search is currently unavailable."
               end
             | inl _ => "Sorry, the web search is currently unavailable."
             end
  ∧ events_of (math_web_search q) s = [EvChat "qwen3:1.7b" [user_message q] None].
Proof.
  unfold events_of, math_web_search, try_except. run.
  destruct (ollama_chat "qwen3:1.7b" [user_message q] None (the_world s))
    as [[e|response] w'] eqn:Hchat; cbn.
  - split; [done|]. apply drop_app_length.
  - destruct (content (message response)); cbn; (split; [done|]);
      apply drop_app_length.
Qed.

End Shell_properties.

(** X18. [get_greeting_prompt] with a style it does not know writes the
    friendly prompt, the same as when the style is left out. *)
Theorem get_greeting_prompt_unknown_style (name style : string) :
  style ≠ "friendly" → style ≠ "formal" → style ≠ "casual" →
  get_greeting_prompt name (Some style) =
    "Please write a warm, friendly greeting for someone named " +:+ name +:+ "."
  ∧ get_greeting_prompt name (Some style) = get_greeting_prompt name None.
Proof.
  intros H1 H2 H3.
  assert (styles !! style = None) as Hnone.
  { unfold styles. by rewrite !lookup_insert_ne, lookup_singleton_ne. }
  unfold get_greeting_prompt. cbn [default from_option id]. rewrite Hnone.
  by vm_compute.
Qed.

End Properties.

(** * The client on scripted conversations *)

Section Runs.
Import Scripted.

(** End-to-end: "what is 2+2" is answered through the [add] tool. *)
Example run_sum :
  (process_query "what is 2+2" (client model true sum_script)).1
  = Returned ("[Tool 'add' returned: 4]" +:+ nl +:+ nl +:+ "The answer is 4.").
Proof. vm_compute. reflexivity. Qed.

(** End-to-end: "hello" is answered directly, with one model call. *)
Example run_hello :
  (process_query "hello" (client model true hello_script)).1 = Returned "Hi there!"
  ∧ length (model_calls (events_of (process_query "hello")
                           (client model true hello_script))) = 1.
Proof. split; vm_compute; reflexivity. Qed.

(** End-to-end: a tool the provider does not have is reported and summed up. *)
Example run_mixed :
  (process_query "pi, 1/0 and 2+2" (client model true mixed_script)).1
  = Returned
      ("[Error calling tool 'math_web_search': Object of type TextContent is not JSON serializable]"
       +:+ nl +:+ "[Error calling tool 'divide': Unknown tool: divide]"
       +:+ nl +:+ "[Tool 'add' returned: 4]"
       +:+ nl +:+ nl +:+ "Done.").
Proof. vm_compute. reflexivity. Qed.

Lemma process_query_not_connected_witness :
  self_session (client model false hello_script) = None
  ∧ process_query "hello" (client model false hello_script)
    = (Returned "Error: Not connected to a server.", client model false hello_script)
  ∧ events_of (process_query "hello") (client model false hello_script) = [].
Proof.
  split; [reflexivity|].
  apply (process_query_not_connected (client model false hello_script) "hello").
  reflexivity.
Defined.

Lemma direct_answer_one_model_call_witness :
  (process_query "hello" (client model true Terminal.contentless_script)).1
  = Returned PyNone
  ∧ length (model_calls (events_of (process_query "hello")
                           (client model true Terminal.contentless_script))) = 1.
Proof.
  destruct (direct_answer_one_model_call
              (client model true Terminal.contentless_script) "hello" ()
              [add_tool; search_tool] Terminal.contentless_script
              (answer None None) (after_reply Terminal.contentless_script)
              eq_refl eq_refl eq_refl (or_introl eq_refl))
    as (Hout & _ & Hone).
  split; [exact Hout | exact Hone].
Defined.

(** A dict answer without content gets the placeholder; a text is returned
    as it is. *)
Example run_direct_answers :
  (process_query "hello" (client model true Terminal.dict_script)).1
  = Returned "Sorry, I received no content."
  ∧ (process_query "hello" (client model true hello_script)).1
    = Returned "Hi there!".
Proof. split; vm_compute; reflexivity. Qed.

Lemma tool_messages_in_request_order_witness :
  length (model_calls (events_of (process_query "pi, 1/0 and 2+2")
                         (client model true mixed_script))) = 2
  ∧ messages (process_query "pi, 1/0 and 2+2" (client model true mixed_script)).2
    = [{| role := "user"; content := Some "pi, 1/0 and 2+2"; tool_calls := None;
          class_of := Dict |};
       message (answer (Some "Let me check.") (Some mixed_calls));
       {| role := "tool";
          content := Some "Error calling tool 'math_web_search': Object of type TextContent is not JSON serializable";
          tool_calls := None; class_of := Dict |};
       {| role := "tool";
          content := Some "Error calling tool 'divide': Unknown tool: divide";
          tool_calls := None; class_of := Dict |};
       {| role := "tool"; content := Some "4"; tool_calls := None;
          class_of := Dict |}].
Proof.
  destruct (tool_messages_in_request_order
              (client model true mixed_script) "pi, 1/0 and 2+2" ()
              [add_tool; search_tool] mixed_script
              (answer (Some "Let me check.") (Some mixed_calls))
              (after_reply mixed_script)
              (call "math_web_search" {[ "query" := JStr "pi" ]})
              [call "divide" {[ "a" := JInt 1; "b" := JInt 0 ]};
               call "add" {[ "a" := JInt 2; "b" := JInt 2 ]}]
              eq_refl eq_refl eq_refl eq_refl)
    as (_ & Htwo & _ & _ & Hmsgs).
  split; [exact Htwo|].
  etrans; [exact Hmsgs | vm_compute; reflexivity].
Defined.

Lemma failed_call_does_not_abort_witness :
  messages (process_query "pi, 1/0 and 2+2" (client model true mixed_script)).2 !! 3
    = Some {| role := "tool";
              content := Some "Error calling tool 'divide': Unknown tool: divide";
              tool_calls := None; class_of := Dict |}
  ∧ tool_outputs (process_query "pi, 1/0 and 2+2" (client model true mixed_script)).2 !! 1
    = Some "[Error calling tool 'divide': Unknown tool: divide]"
  ∧ messages (process_query "pi, 1/0 and 2+2" (client model true mixed_script)).2 !! 4
    = Some {| role := "tool"; content := Some "4"; tool_calls := None;
              class_of := Dict |}
  ∧ tool_outputs (process_query "pi, 1/0 and 2+2" (client model true mixed_script)).2 !! 2
    = Some "[Tool 'add' returned: 4]"
  ∧ last (events_of (process_query "pi, 1/0 and 2+2") (client model true mixed_script))
    = Some (EvChat model
              (messages (process_query "pi, 1/0 and 2+2"
                           (client model true mixed_script)).2)
              None).
Proof.
  destruct (failed_call_does_not_abort
              (client model true mixed_script) "pi, 1/0 and 2+2" ()
              [add_tool; search_tool] mixed_script
              (answer (Some "Let me check.") (Some mixed_calls))
              (after_reply mixed_script)
              (call "math_web_search" {[ "query" := JStr "pi" ]})
              [call "divide" {[ "a" := JInt 1; "b" := JInt 0 ]};
               call "add" {[ "a" := JInt 2; "b" := JInt 2 ]}]
              eq_refl eq_refl eq_refl eq_refl)
    as (_ & _ & Hlast & _ & _ & Hat).
  destruct (Hat 1 (call "divide" {[ "a" := JInt 1; "b" := JInt 0 ]})
              (Raised (Exn "McpError" "Unknown tool: divide"))
              eq_refl ltac:(vm_compute; reflexivity))
    as (Hfailed & _).
  destruct (Hfailed "Unknown tool: divide" eq_refl) as (Hmsg1 & Hline1).
  destruct (Hat 2 (call "add" {[ "a" := JInt 2; "b" := JInt 2 ]})
              (Returned (Scalar "4"))
              eq_refl ltac:(vm_compute; reflexivity))
    as (_ & Hdone).
  destruct (Hdone (Scalar "4") "4" eq_refl eq_refl) as (Hmsg2 & Hline2).
  split_and!.
  - etrans; [exact Hmsg1 | vm_compute; reflexivity].
  - etrans; [exact Hline1 | vm_compute; reflexivity].
  - etrans; [exact Hmsg2 | vm_compute; reflexivity].
  - etrans; [exact Hline2 | vm_compute; reflexivity].
  - exact Hlast.
Defined.

Lemma tool_path_output_witness :
  (process_query "pi, 1/0 and 2+2" (client model true mixed_script)).1
  = Returned
      ("[Error calling tool 'math_web_search': Object of type TextContent is not JSON serializable]"
       +:+ String "010" ""
       +:+ "[Error calling tool 'divide': Unknown tool: divide]"
       +:+ String "010" ""
       +:+ "[Tool 'add' returned: 4]"
       +:+ String "010" "" +:+ String "010" ""
       +:+ "Done.").
Proof.
  etrans.
  - exact (proj1 (tool_path_output
                    (client model true mixed_script) "pi, 1/0 and 2+2" ()
                    [add_tool; search_tool] mixed_script
                    (answer (Some "Let me check.") (Some mixed_calls))
                    (after_reply mixed_script)
                    (call "math_web_search" {[ "query" := JStr "pi" ]})
                    [call "divide" {[ "a" := JInt 1; "b" := JInt 0 ]};
                     call "add" {[ "a" := JInt 2; "b" := JInt 2 ]}]
                    (answer (Some "Done.") None)
                    (after_reply (after_reply mixed_script)) "Done."
                    eq_refl eq_refl eq_refl eq_refl eq_refl eq_refl)).
  - vm_compute. reflexivity.
Defined.

Lemma tool_calls_take_precedence_witness :
  (process_query "pi, 1/0 and 2+2" (client model true mixed_script)).1
  = Returned
      ("[Error calling tool 'math_web_search': Object of type TextContent is not JSON serializable]"
       +:+ nl +:+ "[Error calling tool 'divide': Unknown tool: divide]"
       +:+ nl +:+ "[Tool 'add' returned: 4]"
       +:+ nl +:+ nl +:+ "Done.").
Proof.
  exact (proj2 (tool_calls_take_precedence
                  (client model true mixed_script) "pi, 1/0 and 2+2" ()
                  [add_tool; search_tool] mixed_script
                  (answer (Some "Let me check.") (Some mixed_calls))
                  (after_reply mixed_script) "Let me check."
                  (call "math_web_search" {[ "query" := JStr "pi" ]})
                  [call "divide" {[ "a" := JInt 1; "b" := JInt 0 ]};
                   call "add" {[ "a" := JInt 2; "b" := JInt 2 ]}]
                  eq_refl eq_refl eq_refl eq_refl eq_refl)).
Defined.

Lemma listing_and_summary_failures_are_fatal_witness :
  (process_query "hello" (client model true closed_script)).1
    = Raised (Exn "McpError" "Connection closed")
  ∧ events_of (process_query "hello") (client model true closed_script) = [EvListTools]
  ∧ (process_query "what is 2+2" (client model true no_summary_script)).1
    = Raised (Exn "ConnectionError" "Failed to connect to Ollama")
  ∧ messages (process_query "what is 2+2" (client model true no_summary_script)).2
    = [user_message "what is 2+2"; message (answer None (Some sum_calls));
       tool_message "4"].
Proof.
  destruct (proj1 (listing_and_summary_failures_are_fatal
                     (client model true closed_script) "hello" () eq_refl)
              (Exn "McpError" "Connection closed") closed_script eq_refl)
    as (Hraised & Hevs & _).
  destruct (proj2 (listing_and_summary_failures_are_fatal
                     (client model true no_summary_script) "what is 2+2" () eq_refl)
              [add_tool; search_tool] no_summary_script
              (answer None (Some sum_calls)) (after_reply no_summary_script)
              (call "add" {[ "a" := JInt 2; "b" := JInt 2 ]}) []
              (Exn "ConnectionError" "Failed to connect to Ollama")
              (after_reply no_summary_script)
              eq_refl eq_refl eq_refl eq_refl)
    as (Hraised' & _ & Hmsgs & _).
  split_and!; [exact Hraised | exact Hevs | exact Hraised' | exact Hmsgs].
Defined.

(** C5 as stated fails on "hello": the direct answer costs exactly one model
    call, which is neither zero nor two. *)
Lemma zero_or_two_model_calls_refuted :
  let n := length (model_calls (events_of (process_query "hello")
                                  (client model true hello_script))) in
  n = 1 ∧ ¬ (n = 0 ∨ n = 2).
Proof. vm_compute. split; [reflexivity | intros [H|H]; discriminate H]. Qed.

Lemma at_most_two_model_calls_witness :
  length (model_calls (events_of (process_query "hello")
                         (client model true hello_script))) = 1
  ∧ length (model_calls (events_of (process_query "what is 2+2")
                           (client model true sum_script))) = 2.
Proof.
  pose proof (proj2 (proj2 (proj2 (at_most_two_model_calls
                                     (client model true hello_script) "hello")))
                () eq_refl) as Hone.
  pose proof (proj2 (proj2 (proj2 (at_most_two_model_calls
                                     (client model true sum_script) "what is 2+2")))
                () eq_refl) as Htwo.
  hnf in Hone, Htwo. destruct Hone as [Hone _], Htwo as [Htwo _].
  split; [by rewrite Hone | by rewrite Htwo].
Defined.

Lemma available_tools_in_catalog_order_witness :
  ∃ entry, available_tools [add_tool; search_tool] !! 1 = Some entry
    ∧ function_name (function entry) = "math_web_search"
    ∧ properties (parameters (function entry)) = JObj ∅
    ∧ required (parameters (function entry)) = JArr [].
Proof.
  destruct (proj2 (available_tools_in_catalog_order [add_tool; search_tool])
              1 search_tool eq_refl)
    as (entry & Hentry & _ & Hname & _ & _ & Hprops & Hreq).
  exists entry. split_and!; [exact Hentry | exact Hname | exact Hprops | exact Hreq].
Defined.

Lemma connect_to_server_runner_witness :
  connect_to_server "server.rb" (client model false hello_script)
    = (Raised (Exn "ValueError" "Server script must be a .py or .js file"),
       client model false hello_script)
  ∧ (∃ rest, events_of (connect_to_server "mcp_calculator_server.py")
               (client model false hello_script)
       = EvLaunch {| command := "python"; args := ["mcp_calculator_server.py"];
                     env := None |} :: rest)
  ∧ (∃ rest, events_of (connect_to_server "server.js")
               (client model false hello_script)
       = EvLaunch {| command := "node"; args := ["server.js"]; env := None |} :: rest).
Proof.
  split_and!.
  - apply (proj1 (connect_to_server_runner (client model false hello_script) "server.rb"));
      apply endswith_false; reflexivity.
  - apply (proj1 (proj2 (connect_to_server_runner (client model false hello_script)
                           "mcp_calculator_server.py"))).
    apply endswith_spec. reflexivity.
  - apply (proj2 (proj2 (connect_to_server_runner (client model false hello_script)
                           "server.js"))).
    apply endswith_spec. reflexivity.
Defined.

End Runs.

(** * The shell and the server on scripted conversations *)

Section Shell_runs.
Import Scripted Terminal.

Lemma process_query_forgets_history_witness :
  messages (process_query "hello"
              (set_tool_outputs ["[Tool 'add' returned: 4]"]
                 (set_messages [user_message "what is 2+2"]
                    (client model true hello_script)))).2
  = messages (process_query "hello" (client model true hello_script)).2.
Proof.
  apply (process_query_forgets_history (client model true hello_script) "hello"
           [user_message "what is 2+2"] ["[Tool 'add' returned: 4]"]).
  discriminate.
Defined.

Lemma decision_failure_is_fatal_witness :
  (process_query "hello" (client model true silent_script)).1
  = Raised (Exn "ConnectionError" "Failed to connect to Ollama")
  ∧ messages (process_query "hello" (client model true silent_script)).2
    = [user_message "hello"].
Proof.
  destruct (decision_failure_is_fatal
              (client model true silent_script) "hello" ()
              [add_tool; search_tool] silent_script
              (Exn "ConnectionError" "Failed to connect to Ollama") silent_script
              eq_refl eq_refl eq_refl)
    as (Hraised & _ & Hmsgs & _).
  split; [exact Hraised | exact Hmsgs].
Defined.

Lemma summary_without_content_raises_witness :
  (process_query "what is 2+2" (client model true mute_summary_script)).1
  = Raised (Exn "KeyError" "'content'")
  ∧ tool_outputs (process_query "what is 2+2" (client model true mute_summary_script)).2
    = ["[Tool 'add' returned: 4]"].
Proof.
  destruct (summary_without_content_raises
              (client model true mute_summary_script) "what is 2+2" ()
              [add_tool; search_tool] mute_summary_script
              (answer None (Some sum_calls)) (after_reply mute_summary_script)
              (call "add" {[ "a" := JInt 2; "b" := JInt 2 ]}) []
              (answer None None) (after_reply (after_reply mute_summary_script))
              eq_refl eq_refl eq_refl eq_refl eq_refl eq_refl)
    as (Hraised & _ & Hlines).
  split; [exact Hraised|].
  etrans; [exact Hlines | vm_compute; reflexivity].
Defined.

Lemma listing_comes_first_witness :
  ∃ rest, events_of (process_query "hello") (client model true hello_script)
          = EvListTools :: rest
    ∧ Forall (λ ev, is_chat ev = true ∨ is_call ev = true) rest.
Proof.
  apply (listing_comes_first (client model true hello_script) "hello" ()).
  reflexivity.
Defined.

Lemma chat_loop_skips_blank_lines_witness :
  chat_loop (filter (λ i, ¬ is_blank i) [Typed "   "; Typed "hello"; Typed ""])
    (client model true hello_script)
  = chat_loop [Typed "   "; Typed "hello"; Typed ""] (client model true hello_script).
Proof.
  apply (chat_loop_skips_blank_lines [Typed "   "; Typed "hello"; Typed ""]
           (client model true hello_script)).
  discriminate.
Defined.

Lemma chat_loop_not_connected_witness :
  (chat_loop [Typed "hello"; Typed "what is 2+2"] (client model false hello_script)).2
  = client model false hello_script
  ∧ Forall (λ x, x = Answer "Error: Not connected to a server.")
      (chat_loop [Typed "hello"; Typed "what is 2+2"]
         (client model false hello_script)).1.
Proof.
  apply (chat_loop_not_connected [Typed "hello"; Typed "what is 2+2"]
           (client model false hello_script)).
  reflexivity.
Defined.

Lemma chat_loop_stops_reading_witness :
  chat_loop ([Typed "hello"] ++ Typed "  QUIT " :: [Typed "what is 2+2"])
    (client model true hello_script)
  = chat_loop [Typed "hello"] (client model true hello_script).
Proof.
  apply (chat_loop_stops_reading [Typed "hello"] (Typed "  QUIT ")
           [Typed "what is 2+2"] (client model true hello_script)).
  vm_compute. reflexivity.
Defined.

Lemma main_rejects_bad_invocation_witness :
  main (Con:=console) ["client.py"] [Typed "hello"] hello_script = (Exited 1, [], (hello_script, []))
  ∧ main (Con:=console) ["client.py"; "server.rb"] [Typed "hello"] hello_script
    = (Failed (Exn "ValueError" "Server script must be a .py or .js file"),
       [], (hello_script, [])).
Proof.
  split.
  - apply (proj1 (main_rejects_bad_invocation (Con:=console) [Typed "hello"] hello_script)).
    cbn. lia.
  - etrans.
    + apply (proj2 (main_rejects_bad_invocation (Con:=console) [Typed "hello"] hello_script)
               "client.py" "server.rb" []);
        apply endswith_false; vm_compute; reflexivity.
    + vm_compute. reflexivity.
Defined.

Lemma get_greeting_prompt_unknown_style_witness :
  get_greeting_prompt "Ada" (Some "pirate")
  = "Please write a warm, friendly greeting for someone named " +:+ "Ada" +:+ ".".
Proof.
  apply (get_greeting_prompt_unknown_style "Ada" "pirate"); discriminate.
Defined.

(** The chat loop shows the answer, then the failure of a query the backend
    no longer answers, and stops at "quit". *)
Example run_chat_loop :
  (chat_loop [Typed "hello"; Typed ""; Typed " again "; Typed "Quit"; Typed "more"]
     (client model true hello_script)).1
  = [Answer "Hi there!";
     Failure (Exn "ConnectionError" "Failed to connect to Ollama")].
Proof. vm_compute. reflexivity. Qed.

End Shell_runs.

Section Wired_runs.
#[local] Existing Instance Wired.collaborators.
#[local] Existing Instance Wired.console.

Lemma connect_success_witness :
  self_session (connect_to_server "mcp_calculator_server.py"
                  (Wired.fresh_client None None None)).2
  = Some ()
  ∧ events_of (connect_to_server "mcp_calculator_server.py")
      (Wired.fresh_client None None None)
    = [EvLaunch {| command := "python"; args := ["mcp_calculator_server.py"];
                   env := None |};
       EvOpenSession; EvInitialize; EvListTools].
Proof.
  destruct (connect_success (Collab:=Wired.collaborators)
              (Wired.fresh_client None None None)
              "mcp_calculator_server.py"
              () (Wired.wired None None None) () (Wired.wired None None None)
              (Wired.wired None None None)
              [Scripted.add_tool; Scripted.search_tool] (Wired.wired None None None)
              (or_introl (ex_intro _ "mcp_calculator_server" eq_refl))
              eq_refl eq_refl eq_refl eq_refl)
    as (_ & Hsession & _ & Hevents).
  split; [exact Hsession|].
  etrans; [exact Hevents | vm_compute; reflexivity].
Defined.

Lemma connect_failure_leaves_disconnected_witness :
  (connect_to_server "mcp_calculator_server.py"
     (Wired.fresh_client (Some Wired.refused) None None)).1
  = Raised Wired.refused
  ∧ (process_query "hello"
       (connect_to_server "mcp_calculator_server.py"
          (Wired.fresh_client (Some Wired.refused) None None)).2).1
    = Returned "Error: Not connected to a server.".
Proof.
  destruct (connect_failure_leaves_disconnected (Collab:=Wired.collaborators)
              (Wired.fresh_client (Some Wired.refused) None None)
              "mcp_calculator_server.py" Wired.refused
              (or_introl (ex_intro _ "mcp_calculator_server" eq_refl))
              (or_introl (ex_intro _ (Wired.wired (Some Wired.refused) None None)
                            eq_refl)))
    as (Hraised & _ & Hquery).
  split; [exact Hraised | exact (Hquery eq_refl "hello")].
Defined.

Lemma failed_handshake_leaves_session_witness :
  (connect_to_server "mcp_calculator_server.py"
     (Wired.fresh_client None None (Some Wired.no_handshake))).1
  = Raised Wired.no_handshake
  ∧ self_session
      (connect_to_server "mcp_calculator_server.py"
         (Wired.fresh_client None None (Some Wired.no_handshake))).2
    = Some ().
Proof.
  destruct (failed_handshake_leaves_session (Collab:=Wired.collaborators)
              (Wired.fresh_client None None (Some Wired.no_handshake))
              "mcp_calculator_server.py"
              () (Wired.wired None None (Some Wired.no_handshake))
              () (Wired.wired None None (Some Wired.no_handshake))
              Wired.no_handshake (Wired.wired None None (Some Wired.no_handshake))
              (or_introl (ex_intro _ "mcp_calculator_server" eq_refl))
              eq_refl eq_refl eq_refl)
    as (Hraised & Hsession & _).
  split; [exact Hraised | exact Hsession].
Defined.

Lemma connected_after_connect_witness :
  is_Some (self_session
             (connect_to_server "mcp_calculator_server.py"
                (Wired.fresh_client None None None)).2).
Proof.
  apply (connected_after_connect (Collab:=Wired.collaborators)
           (Wired.fresh_client None None None)
           "mcp_calculator_server.py").
  vm_compute. reflexivity.
Defined.

Lemma main_failed_connect_skips_chat_witness :
  main (Con:=Wired.console) ["client.py"; "mcp_calculator_server.py"] [Typed "hello"]
    (Wired.wired (Some Wired.refused) None None)
  = main (Con:=Wired.console) ["client.py"; "mcp_calculator_server.py"] []
      (Wired.wired (Some Wired.refused) None None).
Proof.
  apply (main_failed_connect_skips_chat (Con:=Wired.console) "client.py" "mcp_calculator_server.py" []
           [Typed "hello"] (Wired.wired (Some Wired.refused) None None)
           Wired.refused).
  vm_compute. reflexivity.
Defined.

(** A whole session: connect, one answered query, quit, cleanup. *)
Example run_main :
  (main (Con:=Wired.console) ["client.py"; "mcp_calculator_server.py"] [Typed "hello"; Typed "quit"]
     (Wired.wired None None None)).1
  = (Finished, [Answer "Hi there!"]).
Proof. vm_compute. reflexivity. Qed.

End Wired_runs.
